(** * Verification of the project initializer [scripts/init.go]

    The development embeds the initializer script of the template
    repository: the two validation patterns and the regular-expression
    matching behind them, the line-oriented prompts, the file-tree
    operations (import rewriting, component pruning, final clean-up) and
    the control flow of [main], [gatherProjectInfo], [initializeProject]
    and [initializeGit].

    Go strings are byte strings and are modelled by [string]; the Go
    library functions the script calls ([strings.TrimSpace],
    [strings.ToLower], [strings.HasSuffix], [strings.ReplaceAll],
    [regexp.MatchString], [bufio.Reader.ReadString], the [os] file
    operations) are modelled on these bytes.  [TrimSpace] and [ToLower]
    follow their ASCII paths: bytes from 0x80 up are neither white space
    nor letters with a case. *)

From Stdlib Require Import String Ascii List Bool Arith NArith ZArith Lia.
From stdpp Require Import base option list strings gmap fin_maps.
Import ListNotations.
Local Open Scope list_scope.
Local Open Scope string_scope.

(** ** Go's [strings] package, on bytes *)
Module GoStrings.

Definition byte_le (a b : ascii) : bool := (N_of_ascii a <=? N_of_ascii b)%N.

Definition in_range (lo hi c : ascii) : bool := byte_le lo c && byte_le c hi.

(** [unicode.IsSpace] on Latin-1 bytes below 0x80:
    '\t', '\n', '\v', '\f', '\r', ' '. *)
Definition isSpace (c : ascii) : bool :=
  in_range "009" "013" c || Ascii.eqb c " ".

(** [unicode.ToLower] on a byte: 'A'..'Z' are shifted by 'a' - 'A'. *)
Definition toLowerByte (c : ascii) : ascii :=
  if in_range "A" "Z" c then ascii_of_N (N_of_ascii c + 32) else c.

Fixpoint ToLower (s : string) : string :=
  match s with
  | EmptyString => EmptyString
  | String c s' => String (toLowerByte c) (ToLower s')
  end.

Fixpoint TrimLeft (s : string) : string :=
  match s with
  | EmptyString => EmptyString
  | String c s' => if isSpace c then TrimLeft s' else s
  end.

(** Drops the white space at the end: a byte is kept when it is not a
    space or when something is kept after it. *)
Fixpoint TrimRight (s : string) : string :=
  match s with
  | EmptyString => EmptyString
  | String c s' =>
      match TrimRight s' with
      | EmptyString => if isSpace c then EmptyString else String c EmptyString
      | t => String c t
      end
  end.

Definition TrimSpace (s : string) : string := TrimRight (TrimLeft s).

Fixpoint HasPrefix (s p : string) {struct p} : bool :=
  match p, s with
  | EmptyString, _ => true
  | String a p', String b s' => Ascii.eqb a b && HasPrefix s' p'
  | String _ _, EmptyString => false
  end.

Fixpoint drop (n : nat) (s : string) : string :=
  match n, s with
  | O, _ => s
  | S n', String _ s' => drop n' s'
  | S _, EmptyString => EmptyString
  end.

Definition HasSuffix (s suffix : string) : bool :=
  Nat.leb (String.length suffix) (String.length s)
  && String.eqb (drop (String.length s - String.length suffix) s) suffix.

(** [strings.Contains]. *)
Fixpoint Contains (s sub : string) : bool :=
  HasPrefix s sub ||
  match s with
  | EmptyString => false
  | String _ s' => Contains s' sub
  end.

(** The scan of [strings.Replace] with [n = -1] and a non-empty [old]:
    left to right, the leftmost occurrence is replaced and the scan
    resumes behind it.  [skip] counts the bytes of a replaced
    occurrence that are still to be passed over. *)
Fixpoint replace_scan (old new : string) (skip : nat) (s : string) : string :=
  match s with
  | EmptyString => EmptyString
  | String c s' =>
      match skip with
      | S k => replace_scan old new k s'
      | O =>
          if HasPrefix s old
          then new ++ replace_scan old new (String.length old - 1) s'
          else String c (replace_scan old new 0 s')
      end
  end.

(** With an empty [old], [new] is put in front of every byte and at
    the end. *)
Fixpoint interleave (new s : string) : string :=
  match s with
  | EmptyString => new
  | String c s' => new ++ String c (interleave new s')
  end.

Definition ReplaceAll (s old new : string) : string :=
  if String.eqb old new then s
  else match old with
       | EmptyString => interleave new s
       | String _ _ => replace_scan old new 0 s
       end.


End GoStrings.

(** ** Go's [regexp.MatchString], for the syntax the script's patterns use

    A pattern is a sequence of literal bytes and bracket classes, each
    optionally starred, with an optional [^] in front and [$] at the
    end.  Inside a class, [lo-hi] is a range and a [-] that is not
    between two class bytes stands for itself, as Go's parser reads it
    under the Perl flags. *)
Module GoRegexp.
Import GoStrings.

Inductive regex : Type :=
| Empty : regex
| Eps : regex
| Class (ranges : list (ascii * ascii)) : regex
| Cat (r1 r2 : regex) : regex
| Alt (r1 r2 : regex) : regex
| Star (r : regex) : regex.

Definition in_class (ranges : list (ascii * ascii)) (c : ascii) : bool :=
  existsb (fun lh => in_range (fst lh) (snd lh) c) ranges.

(** *** Parsing *)

(** The body of a bracket class, after the opening bracket. *)
Fixpoint parse_class (first : bool) (t : list ascii) (acc : list (ascii * ascii))
  : option (list (ascii * ascii) * list ascii) :=
  match t with
  | [] => None
  | lo :: t1 =>
      if Ascii.eqb lo "]" && negb first then Some (rev acc, t1)
      else if Ascii.eqb lo "\" then None
      else
        match t1 with
        | dash :: hi :: rest =>
            if Ascii.eqb dash "-" && negb (Ascii.eqb hi "]") then
              if Ascii.eqb hi "\" then None
              else if byte_le lo hi then parse_class false rest ((lo, hi) :: acc)
              else None
            else parse_class false t1 ((lo, lo) :: acc)
        | _ => parse_class false t1 ((lo, lo) :: acc)
        end
  end.

Definition is_meta (c : ascii) : bool :=
  existsb (Ascii.eqb c) (list_ascii_of_string "\.+*?()|[]{}^$").

Definition star_if (starred : bool) (r : regex) : regex :=
  if starred then Star r else r.

(** One atom with its optional star; [None] outside the syntax. *)
Definition parse_atom (t : list ascii) : option (regex * list ascii) :=
  match t with
  | [] => None
  | c :: t1 =>
      if Ascii.eqb c "[" then
        match t1 with
        | neg :: _ =>
            if Ascii.eqb neg "^" then None
            else match parse_class true t1 [] with
                 | Some (rs, rest) => Some (Class rs, rest)
                 | None => None
                 end
        | [] => None
        end
      else if is_meta c then None
      else Some (Class [(c, c)], t1)
  end.

(** A sequence of atoms up to the end of the pattern or a final [$];
    the boolean tells whether the [$] was there. *)
Fixpoint parse_seq (fuel : nat) (t : list ascii) : option (regex * bool) :=
  match fuel with
  | O => None
  | S fuel' =>
      match t with
      | [] => Some (Eps, false)
      | [c] =>
          if Ascii.eqb c "$" then Some (Eps, true)
          else match parse_atom t with
               | Some (a, []) => Some (a, false)
               | _ => None
               end
      | _ =>
          match parse_atom t with
          | Some (a, rest) =>
              let (a', rest') :=
                match rest with
                | s :: rest1 => if Ascii.eqb s "*" then (Star a, rest1) else (a, rest)
                | [] => (a, rest)
                end in
              match parse_seq fuel' rest' with
              | Some (Eps, e) => Some (a', e)
              | Some (r, e) => Some (Cat a' r, e)
              | None => None
              end
          | None => None
          end
      end
  end.

Definition any_byte : regex := Class [("000"%char, "255"%char)].

(** [regexp.Compile]: an unanchored end lets any bytes go by. *)
Definition Compile (pattern : string) : option regex :=
  let t := list_ascii_of_string pattern in
  let (anchored, body) :=
    match t with
    | c :: t1 => if Ascii.eqb c "^" then (true, t1) else (false, t)
    | [] => (false, t)
    end in
  match parse_seq (S (length body)) body with
  | Some (r, at_end) =>
      let r1 := if at_end then r else Cat r (Star any_byte) in
      Some (if anchored then r1 else Cat (Star any_byte) r1)
  | None => None
  end.

(** *** Matching, by derivatives *)

Fixpoint nullable (r : regex) : bool :=
  match r with
  | Empty => false
  | Eps => true
  | Class _ => false
  | Cat r1 r2 => nullable r1 && nullable r2
  | Alt r1 r2 => nullable r1 || nullable r2
  | Star _ => true
  end.

Fixpoint deriv (c : ascii) (r : regex) : regex :=
  match r with
  | Empty => Empty
  | Eps => Empty
  | Class rs => if in_class rs c then Eps else Empty
  | Cat r1 r2 =>
      if nullable r1 then Alt (Cat (deriv c r1) r2) (deriv c r2)
      else Cat (deriv c r1) r2
  | Alt r1 r2 => Alt (deriv c r1) (deriv c r2)
  | Star r1 => Cat (deriv c r1) (Star r1)
  end.

Fixpoint matches (r : regex) (s : list ascii) : bool :=
  match s with
  | [] => nullable r
  | c :: s' => matches (deriv c r) s'
  end.

(** [regexp.MatchString]: the compile error, or whether [s] has a match. *)
Definition MatchString (pattern s : string) : option bool :=
  match Compile pattern with
  | Some r => Some (matches r (list_ascii_of_string s))
  | None => None
  end.

(** The language of a regular expression. *)
Inductive Matches : regex -> list ascii -> Prop :=
| MEps : Matches Eps []
| MClass rs c : in_class rs c = true -> Matches (Class rs) [c]
| MCat r1 r2 s1 s2 : Matches r1 s1 -> Matches r2 s2 -> Matches (Cat r1 r2) (s1 ++ s2)
| MAltL r1 r2 s : Matches r1 s -> Matches (Alt r1 r2) s
| MAltR r1 r2 s : Matches r2 s -> Matches (Alt r1 r2) s
| MStar0 r : Matches (Star r) []
| MStarS r s1 s2 : Matches r s1 -> Matches (Star r) s2 -> Matches (Star r) (s1 ++ s2).

End GoRegexp.

(** ** [scripts/init.go]: constants and validation *)
Module Validation.
Import GoStrings GoRegexp.

Definition projectNamePattern : string :=
  "^[a-zA-Z0-9][a-zA-Z0-9-]*[a-zA-Z0-9]$".

Definition modulePathPattern : string :=
  "^[a-zA-Z0-9][a-zA-Z0-9-_.]*[a-zA-Z0-9]/" ++
  "[a-zA-Z0-9][a-zA-Z0-9-_.]*[a-zA-Z0-9]/[a-zA-Z0-9][a-zA-Z0-9-]*[a-zA-Z0-9]$".

Definition isValidProjectName (name : string) : bool :=
  match MatchString projectNamePattern name with
  | None => false
  | Some matched => matched && Nat.ltb 0 (String.length name)
  end.

Definition isValidModulePath (path : string) : bool :=
  match MatchString modulePathPattern path with
  | None => false
  | Some matched => matched
  end.

(** *** What the patterns say, letter by letter *)

Definition is_alnum (c : ascii) : bool :=
  in_range "a" "z" c || in_range "A" "Z" c || in_range "0" "9" c.

(** Interior bytes of a project name and of the last path segment. *)
Definition is_name_byte (c : ascii) : bool := is_alnum c || Ascii.eqb c "-".

(** Interior bytes of the first two path segments. *)
Definition is_host_byte (c : ascii) : bool :=
  is_alnum c || Ascii.eqb c "-" || Ascii.eqb c "_" || Ascii.eqb c ".".

(** A word of at least two bytes: an alphanumeric first byte, an
    alphanumeric last byte, [interior] bytes between them. *)
Definition bounded_word (interior : ascii -> bool) (w : list ascii) : bool :=
  match w with
  | [] => false
  | a :: rest =>
      match rest with
      | [] => false
      | _ :: _ =>
          is_alnum a && forallb interior (removelast rest) && is_alnum (List.last rest a)
      end
  end.

Definition name_shape (name : string) : bool :=
  bounded_word is_name_byte (list_ascii_of_string name).

(** The pieces of [l] between the occurrences of [sep]. *)
Fixpoint split_on (sep : ascii) (l : list ascii) : list (list ascii) :=
  match l with
  | [] => [[]]
  | c :: l' =>
      if Ascii.eqb c sep then [] :: split_on sep l'
      else match split_on sep l' with
           | [] => [[c]]
           | w :: ws => (c :: w) :: ws
           end
  end.

Definition path_shape (path : string) : bool :=
  match split_on "/" (list_ascii_of_string path) with
  | [host; org; repo] =>
      bounded_word is_host_byte host
      && bounded_word is_host_byte org
      && bounded_word is_name_byte repo
  | _ => false
  end.

(** The module-path rule in the words of the specification: exactly
    three slash-separated segments, each beginning and ending with an
    alphanumeric byte, with '-', '_' and '.' allowed inside. *)
Definition spec_segment (seg : list ascii) : bool :=
  match seg with
  | [] => false
  | a :: rest =>
      is_alnum a && forallb is_host_byte (removelast seg) && is_alnum (List.last rest a)
  end.

Definition spec_module_path (path : string) : bool :=
  match split_on "/" (list_ascii_of_string path) with
  | [host; org; repo] => spec_segment host && spec_segment org && spec_segment repo
  | _ => false
  end.

(** *** The two patterns as regular expressions *)

Definition alnum_ranges : list (ascii * ascii) :=
  [("a", "z"); ("A", "Z"); ("0", "9")]%char.
Definition name_ranges : list (ascii * ascii) :=
  (alnum_ranges ++ [("-", "-")])%list%char.
Definition host_ranges : list (ascii * ascii) :=
  (name_ranges ++ [("_", "_"); (".", ".")])%list%char.

(** The shape both patterns repeat: [[A][I]*[A]]. *)
Definition word_regex (interior : list (ascii * ascii)) (tail : option regex) : regex :=
  Cat (Class alnum_ranges)
      (Cat (Star (Class interior))
           match tail with
           | None => Class alnum_ranges
           | Some r => Cat (Class alnum_ranges) r
           end).

Definition slash_then (r : regex) : option regex :=
  Some (Cat (Class [("/", "/")]%char) r).

Definition projectNameRegex : regex := word_regex name_ranges None.

Definition modulePathRegex : regex :=
  word_regex host_ranges
    (slash_then (word_regex host_ranges
       (slash_then (word_regex name_ranges None)))).

End Validation.

(** ** The file tree under the working directory

    The tree is a finite map from relative paths in the clean form that
    [filepath.Join] produces ("go.mod", "cmd/cli/main.go") to the node
    found there.  The working directory itself is the implicit root.
    The operations follow the documented behaviour of the [os] package
    on such a tree: the errors they report are the structural ones (a
    missing path, a directory where a file is expected, a directory
    that is not empty); permissions and I/O faults are outside the
    model, and a path that runs through a regular file counts as
    missing. *)
Module FS.
Import GoStrings.

Inductive node : Type :=
| File (mode : N) (content : string)
| Dir.

Definition isDir (n : node) : bool :=
  match n with Dir => true | File _ _ => false end.

(** [path] lies strictly below [dir]. *)
Definition under (dir path : string) : bool := HasPrefix path (dir ++ "/").

(** The part of a path in front of its last slash, if it has one. *)
Fixpoint parent (path : string) : option string :=
  match path with
  | EmptyString => None
  | String c rest =>
      match parent rest with
      | Some d => Some (String c d)
      | None => if Ascii.eqb c "/" then Some EmptyString else None
      end
  end.

Definition parent_is_dir (t : gmap string node) (path : string) : bool :=
  match parent path with
  | None => true
  | Some d => match t !! d with Some Dir => true | _ => false end
  end.

Definition has_children (t : gmap string node) (dir : string) : bool :=
  existsb (fun kv => under dir (fst kv)) (map_to_list t).

Definition Stat (t : gmap string node) (path : string) : option node := t !! path.

Definition ReadFile (t : gmap string node) (path : string) : string + string :=
  match t !! path with
  | Some (File _ content) => inl content
  | Some Dir => inr ("read " ++ path ++ ": is a directory")
  | None => inr ("open " ++ path ++ ": no such file or directory")
  end.

(** [os.WriteFile]: an existing file is truncated and keeps its mode,
    a new one is created with [perm]. *)
Definition WriteFile (t : gmap string node) (path data : string) (perm : N)
  : gmap string node + string :=
  match t !! path with
  | Some (File mode _) => inl (<[path := File mode data]> t)
  | Some Dir => inr ("open " ++ path ++ ": is a directory")
  | None =>
      if parent_is_dir t path then inl (<[path := File perm data]> t)
      else inr ("open " ++ path ++ ": no such file or directory")
  end.

(** [os.Remove]: a file or an empty directory. *)
Definition Remove (t : gmap string node) (path : string) : gmap string node + string :=
  match t !! path with
  | None => inr ("remove " ++ path ++ ": no such file or directory")
  | Some (File _ _) => inl (delete path t)
  | Some Dir =>
      if has_children t path then inr ("remove " ++ path ++ ": directory not empty")
      else inl (delete path t)
  end.

(** [os.RemoveAll]: the path and everything below it; a missing path
    is not an error. *)
Definition RemoveAll (t : gmap string node) (path : string) : gmap string node :=
  filter (fun kv => negb (String.eqb (fst kv) path) && negb (under path (fst kv)) = true) t.

(** *** The order of [filepath.Walk]

    A directory is visited before its entries and the entries in the
    byte order of their names, so paths are visited in their
    lexicographic order with the slash ranked below every other
    byte. *)
Definition walk_rank (c : ascii) : N :=
  if Ascii.eqb c "/" then 0%N else (N_of_ascii c + 1)%N.

Fixpoint walk_leb (a b : string) : bool :=
  match a, b with
  | EmptyString, _ => true
  | String _ _, EmptyString => false
  | String x a', String y b' =>
      if (walk_rank x <? walk_rank y)%N then true
      else if (walk_rank x =? walk_rank y)%N then walk_leb a' b'
      else false
  end.

Fixpoint walk_insert (e : string * node) (l : list (string * node)) : list (string * node) :=
  match l with
  | [] => [e]
  | e' :: l' => if walk_leb (fst e) (fst e') then e :: l else e' :: walk_insert e l'
  end.

Definition walk_order (t : gmap string node) : list (string * node) :=
  foldr walk_insert [] (map_to_list t).

End FS.

(** ** The world the script runs in *)
Module Runtime.

(** What the process does that can be observed from outside: its
    output, the external commands it runs, and every call that changes
    the file tree. *)
Inductive Event : Type :=
| Print (text : string)               (* fmt.Print*, standard output *)
| LogFatal (text : string)            (* the message of log.Fatalf *)
| Exec (argv : list string)           (* an external command is started *)
| TimerFired (nanoseconds : Z)        (* time.After(d) delivered *)
| Kill (argv : list string)           (* Process.Kill on a started command *)
| OsWriteFile (path : string)
| OsCreate (path : string)
| OsRemove (path : string)
| OsRemoveAll (path : string).

Record World : Type := mkWorld {
  stdin : string;                     (* what is left of standard input *)
  fs : gmap string FS.node;
  trace : list Event                  (* oldest event first *)
}.

Record ExecResult : Type := mkExecResult {
  exec_err : option string;           (* the error of Run / Output *)
  exec_output : string
}.

(** How the [select] of the commit step is decided: the commit
    reports first, or the timer does; in the second case whether the
    command had been started, and the error of the kill if any. *)
Inductive SelectCase : Type :=
| DoneFirst
| TimerFirst (started : bool) (kill_err : option string).

(** A process either returns from the function at hand or leaves
    through [os.Exit]. *)
Inductive outcome (A : Type) : Type :=
| Returned (a : A)
| Exited (code : Z).
Arguments Returned {A} a.
Arguments Exited {A} code.

Definition M (A : Type) : Type := World -> outcome A * World.

Definition ret {A} (a : A) : M A := fun w => (Returned a, w).

Definition bind {A B} (m : M A) (k : A -> M B) : M B :=
  fun w =>
    match m w with
    | (Returned a, w1) => k a w1
    | (Exited code, w1) => (Exited code, w1)
    end.

Definition os_Exit {A} (code : Z) : M A := fun w => (Exited code, w).

Definition emit (e : Event) : M unit :=
  fun w => (Returned tt, mkWorld (stdin w) (fs w) (trace w ++ [e])).

Definition get_fs : M (gmap string FS.node) := fun w => (Returned (fs w), w).

Definition put_fs (t : gmap string FS.node) : M unit :=
  fun w => (Returned tt, mkWorld (stdin w) t (trace w)).

End Runtime.

Declare Scope go_scope.
Delimit Scope go_scope with go.
Notation "x <- m ;; k" := (Runtime.bind m (fun x => k))
  (at level 100, m at next level, right associativity) : go_scope.
Notation "m ;; k" := (Runtime.bind m (fun _ => k))
  (at level 100, right associativity) : go_scope.

(** ** Library calls of the script, run in the world *)
Module GoLib.
Import GoStrings Runtime.
Local Open Scope go_scope.

Definition newline : string := String "010" EmptyString.

(** [bufio.Reader.ReadString]: the bytes up to and including the
    first [delim], or all that is left with [false] when the input
    ends before a [delim]. *)
Fixpoint ReadString (delim : ascii) (input : string) : string * bool * string :=
  match input with
  | EmptyString => (EmptyString, false, EmptyString)
  | String c rest =>
      if Ascii.eqb c delim then (String c EmptyString, true, rest)
      else let '(line, ok, rest') := ReadString delim rest in
           (String c line, ok, rest')
  end.

Definition reader_ReadString (delim : ascii) : M (string * bool) :=
  fun w =>
    let '(line, ok, rest) := ReadString delim (stdin w) in
    (Returned (line, ok), mkWorld rest (fs w) (trace w)).

Definition Printf (text : string) : M unit := emit (Print text).
Definition Println (text : string) : M unit := emit (Print (text ++ newline)).

Definition log_Fatalf {A} (text : string) : M A :=
  emit (LogFatal text) ;; os_Exit 1.

Definition os_Stat (path : string) : M (option FS.node) :=
  t <- get_fs ;; ret (FS.Stat t path).

Definition os_ReadFile (path : string) : M (string + string) :=
  t <- get_fs ;; ret (FS.ReadFile t path).

Definition os_WriteFile (path data : string) (perm : N) : M (option string) :=
  emit (OsWriteFile path) ;;
  t <- get_fs ;;
  match FS.WriteFile t path data perm with
  | inl t' => put_fs t' ;; ret None
  | inr e => ret (Some e)
  end.

Definition os_Remove (path : string) : M (option string) :=
  emit (OsRemove path) ;;
  t <- get_fs ;;
  match FS.Remove t path with
  | inl t' => put_fs t' ;; ret None
  | inr e => ret (Some e)
  end.

Definition os_RemoveAll (path : string) : M (option string) :=
  emit (OsRemoveAll path) ;;
  t <- get_fs ;;
  put_fs (FS.RemoveAll t path) ;;
  ret None.

(** [filepath.Walk] from the working directory: the root first, then
    the entries found at the start of the walk, in walk order, until
    the callback reports an error. *)
Fixpoint walk_entries (walkFn : string -> FS.node -> M (option string))
         (entries : list (string * FS.node)) : M (option string) :=
  match entries with
  | [] => ret None
  | (path, info) :: rest =>
      err <- walkFn path info ;;
      match err with
      | Some e => ret (Some e)
      | None => walk_entries walkFn rest
      end
  end.

Definition filepath_Walk_dot (walkFn : string -> FS.node -> M (option string))
  : M (option string) :=
  t <- get_fs ;;
  walk_entries walkFn ((".", FS.Dir) :: FS.walk_order t).

(** [filepath.Base]: the last element of a path. *)
Fixpoint strip_slashes (s : string) : string :=
  match s with
  | EmptyString => EmptyString
  | String c rest =>
      match strip_slashes rest with
      | EmptyString => if Ascii.eqb c "/" then EmptyString else String c EmptyString
      | t => String c t
      end
  end.

Fixpoint after_last_slash (s : string) : string :=
  match s with
  | EmptyString => EmptyString
  | String c rest =>
      if existsb (Ascii.eqb "/") (list_ascii_of_string rest) then after_last_slash rest
      else if Ascii.eqb c "/" then rest else s
  end.

Definition filepath_Base (path : string) : string :=
  match path with
  | EmptyString => "."
  | _ => match strip_slashes path with
         | EmptyString => "/"
         | p => after_last_slash p
         end
  end.

Definition bool_text (b : bool) : string := if b then "true" else "false".

End GoLib.

(** ** [scripts/init.go] *)
Module Script.
Import GoStrings GoLib Runtime Validation.
Local Open Scope go_scope.

(** ProjectConfig holds the configuration for project initialization. *)
Record ProjectConfig : Type := mkProjectConfig {
  ProjectName : string;
  ModulePath : string;
  Description : string;
  Author : string;
  Email : string;
  License : string;
  EnableCLI : bool;
  EnableServer : bool;
  EnableWorker : bool;
  EnableDocs : bool;
  EnableE2ETests : bool;
  GitRemote : string
}.

Definition defaultLicense : string := "MIT".
Definition defaultAuthor : string := "Your Name".
Definition defaultEmail : string := "your.email@example.com".

Definition Second : Z := 1000000000.

(** What the script takes from its environment and cannot change:
    the working directory, the environment variables, the outcome of
    each external command, the way the commit's [select] falls, the
    order in which the map of documentation files is ranged over, and
    the texts that the fixed templates render for a configuration. *)
Record Env : Type := mkEnv {
  os_Getwd : string + string;
  os_Getenv : string -> string;
  exec_run : list string -> ExecResult;
  commit_select : SelectCase;
  index_first : bool;
  updateIndexMarkdown : ProjectConfig -> string;
  updateGettingStartedMarkdown : ProjectConfig -> string;
  readmeText : ProjectConfig -> string
}.

(** A Go [error] is its message; [None] is [nil]. *)
Definition error : Type := option string.

(** The pair of a configuration pointer and an error that
    [gatherProjectInfo] returns: one of the two is set. *)
Inductive gathered : Type :=
| Config (config : ProjectConfig)
| Failed (err : string).

Section WithEnv.
Variable env : Env.

Definition exec_Command_Run (argv : list string) : M ExecResult :=
  emit (Exec argv) ;; ret (exec_run env argv).

(** The idiom [if err := step; err != nil { return wrap(err) }]. *)
Definition check (step : M error) (wrap : string -> string) (next : M error) : M error :=
  err <- step ;;
  match err with
  | Some e => ret (Some (wrap e))
  | None => next
  end.

(** *** Helper functions *)

Definition prompt (question : string) : M string :=
  Printf (question ++ ": ") ;;
  r <- reader_ReadString "010" ;;
  let '(answer, ok) := r in
  if negb ok then ret EmptyString
  else ret (TrimSpace answer).

Definition promptWithDefault (question defaultValue : string) : M string :=
  Printf (question ++ " [" ++ defaultValue ++ "]: ") ;;
  r <- reader_ReadString "010" ;;
  let '(answer, ok) := r in
  if negb ok then ret defaultValue
  else
    let answer := TrimSpace answer in
    if String.eqb answer "" then ret defaultValue
    else ret answer.

Definition promptBool (question : string) (defaultValue : bool) : M bool :=
  let defaultStr := if defaultValue then "Y/n" else "y/N" in
  Printf (question ++ " [" ++ defaultStr ++ "]: ") ;;
  r <- reader_ReadString "010" ;;
  let '(answer, ok) := r in
  if negb ok then ret defaultValue
  else
    let answer := TrimSpace (ToLower answer) in
    if String.eqb answer "" then ret defaultValue
    else ret (String.eqb answer "y" || String.eqb answer "yes").

Definition getGitConfig (key fallback : string) : M string :=
  r <- exec_Command_Run ["git"; "config"; "--global"; key] ;;
  match exec_err r with
  | Some _ => ret fallback
  | None => ret (TrimSpace (exec_output r))
  end.

(** *** Gathering the configuration *)

Definition gatherProjectInfo : M gathered :=
  match os_Getwd env with
  | inr e => ret (Failed ("failed to get current directory: " ++ e))
  | inl cwd =>
      let defaultProjectName := filepath_Base cwd in
      (* Project name *)
      projectName <- promptWithDefault "Project name" defaultProjectName ;;
      if negb (isValidProjectName projectName) then
        ret (Failed "invalid project name: must contain only letters, numbers, and hyphens")
      else
      (* Module path *)
      let defaultModulePath := "github.com/your-org/" ++ projectName in
      modulePath <- promptWithDefault "Go module path" defaultModulePath ;;
      if negb (isValidModulePath modulePath) then
        ret (Failed "invalid module path format")
      else
      (* Description *)
      description <- promptWithDefault "Project description"
                       "A Go application built from go-template-project" ;;
      (* Try to get git config for defaults *)
      gitAuthor <- getGitConfig "user.name" defaultAuthor ;;
      gitEmail <- getGitConfig "user.email" defaultEmail ;;
      author <- promptWithDefault "Author name" gitAuthor ;;
      email <- promptWithDefault "Author email" gitEmail ;;
      license <- promptWithDefault "License" defaultLicense ;;
      (* Components to enable *)
      Println (newline ++ "Components to include:") ;;
      enableCLI <- promptBool "Include CLI application" true ;;
      enableServer <- promptBool "Include HTTP server" true ;;
      enableWorker <- promptBool "Include background worker" false ;;
      enableDocs <- promptBool "Include documentation setup" true ;;
      enableE2ETests <- promptBool "Include E2E tests" false ;;
      (* Git remote (optional) *)
      gitRemote <- prompt "Git remote URL (optional)" ;;
      (* Confirmation *)
      Println (newline ++ "📋 Configuration Summary:") ;;
      Printf ("  Project Name: " ++ projectName ++ newline) ;;
      Printf ("  Module Path:  " ++ modulePath ++ newline) ;;
      Printf ("  Description:  " ++ description ++ newline) ;;
      Printf ("  Author:       " ++ author ++ " <" ++ email ++ ">" ++ newline) ;;
      Printf ("  License:      " ++ license ++ newline) ;;
      Printf ("  Components:   CLI=" ++ bool_text enableCLI
              ++ " Server=" ++ bool_text enableServer
              ++ " Worker=" ++ bool_text enableWorker
              ++ " Docs=" ++ bool_text enableDocs
              ++ " E2E=" ++ bool_text enableE2ETests ++ newline) ;;
      proceed <- promptBool (newline ++ "Proceed with initialization?") false ;;
      if negb proceed then
        Println "❌ Initialization cancelled" ;;
        os_Exit 0
      else
        ret (Config (mkProjectConfig projectName modulePath description author email
                       license enableCLI enableServer enableWorker enableDocs
                       enableE2ETests gitRemote))
  end.

(** *** The mutation steps *)

Definition updateGoMod (config : ProjectConfig) : M error :=
  let goModContent :=
    "module " ++ ModulePath config ++ newline ++
    newline ++
    "go 1.23" ++ newline ++
    newline ++
    "require (" ++ newline ++
    String "009" "// Runtime dependencies will be added as needed" ++ newline ++
    ")" ++ newline in
  os_WriteFile "go.mod" goModContent 420 (* 0o644 *).

Definition oldPath : string := "github.com/your-org/go-template-project".

(** The function literal that [updateImportPaths] hands to
    [filepath.Walk]; [newPath] is the variable it closes over and
    [info] what the walk found at [path]. *)
Definition rewriteWalkFn (newPath path : string) (info : FS.node) : M error :=
  (* Skip directories and non-Go files *)
  if FS.isDir info || negb (HasSuffix path ".go") then ret None
  else
    (* Read file *)
    r <- os_ReadFile path ;;
    match r with
    | inr e => ret (Some e)
    | inl content =>
        (* Replace import paths *)
        let newContent := ReplaceAll content oldPath newPath in
        (* Write back if changed *)
        if negb (String.eqb newContent content) then
          os_WriteFile path newContent
            (match info with FS.File mode _ => mode | FS.Dir => 0%N end)
        else ret None
    end.

Definition updateImportPaths (config : ProjectConfig) : M error :=
  let newPath := ModulePath config in
  filepath_Walk_dot (rewriteWalkFn newPath).

Definition removeUnwantedComponents (config : ProjectConfig) : M error :=
  (* Remove CLI if not wanted *)
  check (if negb (EnableCLI config) then os_RemoveAll "cmd/cli" else ret None) id (
  (* Remove server if not wanted *)
  check (if negb (EnableServer config) then
           check (os_RemoveAll "cmd/server") id (os_RemoveAll "internal/handlers")
         else ret None) id (
  (* Remove worker if not wanted *)
  check (if negb (EnableWorker config) then os_RemoveAll "cmd/worker" else ret None) id (
  (* Remove docs setup if not wanted *)
  check (if negb (EnableDocs config) then os_RemoveAll "docs" else ret None) id (
  (* Remove E2E tests if not wanted *)
  check (if negb (EnableE2ETests config) then os_RemoveAll "tests" else ret None) id (
  ret None))))).

Definition removeFileIfExists (filepath : string) : M error :=
  st <- os_Stat filepath ;;
  match st with
  | Some _ =>
      Printf ("   🗑️  Removing " ++ filepath ++ newline) ;;
      os_Remove filepath
  | None => ret None
  end.

Definition removeEmptyDirectory (dirpath : string) : M error :=
  (* Check if directory exists *)
  st <- os_Stat dirpath ;;
  match st with
  | None => ret None
  | Some _ =>
      (* Try to remove directory (will only succeed if empty) *)
      os_Remove dirpath
  end.

Definition updateDocumentationFile (filepath : string)
           (updateFunc : ProjectConfig -> string) (config : ProjectConfig) : M error :=
  st <- os_Stat filepath ;;
  match st with
  | None => ret None (* File doesn't exist, nothing to update *)
  | Some _ => os_WriteFile filepath (updateFunc config) 420
  end.

Definition cleanupDocumentationReferences (config : ProjectConfig) : M error :=
  let index := ("docs/content/_index.md", updateIndexMarkdown env) in
  let started := ("docs/content/docs/getting-started.md", updateGettingStartedMarkdown env) in
  let docFiles := if index_first env then [index; started] else [started; index] in
  (fix range (files : list (string * (ProjectConfig -> string))) : M error :=
     match files with
     | [] => ret None
     | (file, updateFunc) :: rest =>
         check (updateDocumentationFile file updateFunc config)
               (fun e => "failed to update " ++ file ++ ": " ++ e)
               (range rest)
     end) docFiles.

Definition cleanupTemplateArtifacts (config : ProjectConfig) : M error :=
  Println "🧹 Cleaning up template artifacts..." ;;
  (* Always remove template-specific files *)
  check (removeFileIfExists "tests/e2e/init_e2e_test.go")
        (fun e => "failed to remove tests/e2e/init_e2e_test.go: " ++ e) (
  (* Remove component-specific E2E tests based on selection *)
  check (if EnableE2ETests config then
           check (if negb (EnableCLI config)
                  then removeFileIfExists "tests/e2e/cli_e2e_test.go" else ret None) id (
           check (if negb (EnableServer config)
                  then removeFileIfExists "tests/e2e/server_e2e_test.go" else ret None) id (
           check (if negb (EnableWorker config)
                  then removeFileIfExists "tests/e2e/worker_e2e_test.go" else ret None) id (
           ret None)))
         else ret None) id (
  (* Remove template references from documentation *)
  check (if EnableDocs config then cleanupDocumentationReferences config else ret None)
        (fun e => "failed to cleanup documentation: " ++ e) (
  Println "   ✅ Scheduled init script for removal" ;;
  ret None))).

(** [os.Create] truncates or creates the file, then the rendered
    template is written into it. *)
Definition generateReadme (config : ProjectConfig) : M error :=
  emit (OsCreate "README.md") ;;
  t <- get_fs ;;
  match FS.WriteFile t "README.md" (readmeText env config) 438 (* 0o666 *) with
  | inr e => ret (Some e)
  | inl t' => put_fs t' ;; ret None
  end.

Definition commitTimeout : Z := 10 * Second.

Definition initializeGit (config : ProjectConfig) : M error :=
  (* Initialize git repository *)
  r <- exec_Command_Run ["git"; "init"] ;;
  match exec_err r with
  | Some e =>
      ret (Some ("failed to initialize git: " ++ e ++ " (output: " ++ exec_output r ++ ")"))
  | None =>
      (* Ensure git user config exists for commit *)
      r <- exec_Command_Run ["git"; "config"; "user.name"; Author config] ;;
      match exec_err r with
      | Some e => Printf ("⚠️  Failed to set git user.name: " ++ e ++ newline)
      | None => ret tt
      end ;;
      r <- exec_Command_Run ["git"; "config"; "user.email"; Email config] ;;
      match exec_err r with
      | Some e => Printf ("⚠️  Failed to set git user.email: " ++ e ++ newline)
      | None => ret tt
      end ;;
      (* Add git remote if provided *)
      (if negb (String.eqb (GitRemote config) "") then
         r <- exec_Command_Run ["git"; "remote"; "add"; "origin"; GitRemote config] ;;
         match exec_err r with
         | Some e => Printf ("⚠️  Failed to add git remote: " ++ e ++ newline)
         | None => ret tt
         end
       else ret tt) ;;
      (* Initial commit with timeout *)
      r <- exec_Command_Run ["git"; "add"; "."] ;;
      match exec_err r with
      | Some e =>
          ret (Some ("failed to stage files: " ++ e ++ " (output: " ++ exec_output r ++ ")"))
      | None =>
          let commitMsg := "feat: initialize " ++ ProjectName config ++ " project"
                           ++ newline ++ newline ++ "Generated from go-template-project" in
          let commitCmd := ["git"; "commit"; "-m"; commitMsg] in
          match commit_select env with
          | DoneFirst =>
              r <- exec_Command_Run commitCmd ;;
              match exec_err r with
              | Some e =>
                  ret (Some ("failed to create initial commit: " ++ e
                             ++ " (output: " ++ exec_output r ++ ")"))
              | None => ret None
              end
          | TimerFirst started kill_err =>
              (if started then emit (Exec commitCmd) else ret tt) ;;
              emit (TimerFired commitTimeout) ;;
              (if started then
                 emit (Kill commitCmd) ;;
                 match kill_err with
                 | Some e =>
                     Printf ("Warning: failed to kill git commit process: " ++ e ++ newline)
                 | None => ret tt
                 end
               else ret tt) ;;
              ret (Some "git commit timed out after 10 seconds")
          end
      end
  end.

Definition setupPreCommitHooks : M error :=
  (* Check if pre-commit is installed *)
  r <- exec_Command_Run ["pre-commit"; "--version"] ;;
  match exec_err r with
  | Some _ => ret (Some "pre-commit not installed")
  | None =>
      (* Install hooks *)
      r <- exec_Command_Run ["pre-commit"; "install"] ;;
      ret (exec_err r)
  end.

Definition initializeProject (config : ProjectConfig) : M error :=
  (* Update go.mod *)
  check (updateGoMod config) (fun e => "failed to update go.mod: " ++ e) (
  (* Update import paths in all Go files *)
  check (updateImportPaths config) (fun e => "failed to update import paths: " ++ e) (
  (* Remove unwanted components *)
  check (removeUnwantedComponents config)
        (fun e => "failed to remove unwanted components: " ++ e) (
  (* Clean up template artifacts *)
  check (cleanupTemplateArtifacts config)
        (fun e => "failed to clean up template artifacts: " ++ e) (
  (* Generate README *)
  check (generateReadme config) (fun e => "failed to generate README: " ++ e) (
  (* Initialize git repository (skip in test environments) *)
  (if String.eqb (os_Getenv env "SKIP_GIT_INIT") "" then
     err <- initializeGit config ;;
     match err with
     | Some e =>
         Printf ("⚠️  Failed to initialize git: " ++ e ++ newline) ;;
         Println "   Continuing without git initialization..."
     | None => ret tt
     end
   else Println "ℹ️  Skipping git initialization (test environment)") ;;
  (* Install pre-commit hooks *)
  err <- setupPreCommitHooks ;;
  match err with
  | Some e =>
      Printf ("⚠️  Failed to setup pre-commit hooks: " ++ e ++ newline) ;;
      Println "   You can set them up later with: pre-commit install"
  | None => ret tt
  end ;;
  (* Final cleanup: Remove the init script itself *)
  Println "🗑️  Removing initialization script..." ;;
  err <- os_Remove "scripts/init.go" ;;
  match err with
  | Some e =>
      Printf ("⚠️  Failed to remove init script: " ++ e ++ newline) ;;
      Println "   You can remove it manually: rm scripts/init.go"
  | None => ret tt
  end ;;
  (* Remove scripts directory if it's now empty *)
  err <- removeEmptyDirectory "scripts" ;;
  match err with
  | Some e => Printf ("ℹ️  Could not remove scripts directory: " ++ e ++ newline)
  | None => ret tt
  end ;;
  ret None))))).

Definition main : M unit :=
  Println "🚀 Go Template Project Initialization" ;;
  Println "=====================================" ;;
  Println "" ;;
  g <- gatherProjectInfo ;;
  match g with
  | Failed e => log_Fatalf ("Failed to gather project info: " ++ e)
  | Config config =>
      err <- initializeProject config ;;
      match err with
      | Some e => log_Fatalf ("Failed to initialize project: " ++ e)
      | None =>
          Println (newline ++ "✅ Project initialized successfully!") ;;
          Println (newline ++ "Next steps:") ;;
          Println "  1. Review the generated files" ;;
          Println "  2. Run 'make setup' to install development tools" ;;
          Println "  3. Run 'make check' to verify everything works" ;;
          if EnableDocs config then
            Println "  4. Update documentation in docs/ to match your project" ;;
            Println "  5. Start coding!"
          else
            Println "  4. Start coding!"
      end
  end.

End WithEnv.

End Script.

(** ** The rules of the specification, in its words *)
Module SpecWords.
Import GoStrings.

(** "y" or "yes" in any letter case. *)
Definition yes_answers : list string :=
  ["y"; "Y"; "yes"; "yeS"; "yEs"; "yES"; "Yes"; "YeS"; "YEs"; "YES"].

(** The free-text prompt: the default when the read fails or the line
    is empty after trimming, otherwise the trimmed line. *)
Definition text_answer (defaultValue : string) (line : string) (read_ok : bool) : string :=
  if negb read_ok then defaultValue
  else
    let input := TrimSpace line in
    if String.eqb input "" then defaultValue else input.

(** The boolean prompt: a read failure or an input that is empty after
    trimming yields the default; "y" or "yes" in any case yields true;
    anything else yields false. *)
Definition bool_answer (defaultValue : bool) (line : string) (read_ok : bool) : bool :=
  if negb read_ok then defaultValue
  else
    let input := TrimSpace line in
    if String.eqb input "" then defaultValue
    else existsb (String.eqb input) yes_answers.

(** The import rewriter on one node: a file whose path ends in ".go"
    gets every occurrence of the placeholder module path replaced and
    keeps its mode; any other node stays as it is. *)
Definition rewritten (newPath path : string) (n : FS.node) : FS.node :=
  match n with
  | FS.File mode content =>
      if HasSuffix path ".go"
      then FS.File mode (ReplaceAll content Script.oldPath newPath)
      else n
  | FS.Dir => FS.Dir
  end.

Definition rewrite_tree (newPath : string) (t : gmap string FS.node) : gmap string FS.node :=
  map_imap (fun path n => Some (rewritten newPath path n)) t.

(** The tree after the walk has visited the entries of [l]. *)
Definition rewrite_all (newPath : string) (l : list (string * FS.node))
           (t : gmap string FS.node) : gmap string FS.node :=
  foldl (fun t kn => <[kn.1 := rewritten newPath kn.1 kn.2]> t) t l.

(** The files that are written back: those whose content changes. *)
Definition changed (newPath : string) (entry : string * FS.node) : bool :=
  match snd entry with
  | FS.File _ content =>
      HasSuffix (fst entry) ".go"
      && negb (String.eqb (ReplaceAll content Script.oldPath newPath) content)
  | FS.Dir => false
  end.

Definition written_back (newPath : string) (t : gmap string FS.node) : list string :=
  map fst (List.filter (changed newPath) (FS.walk_order t)).

(** *** The component pruner *)


(** The table of the specification: the flag and the directories that
    go when the flag is false. *)
Definition flag_dirs : list ((Script.ProjectConfig -> bool) * list string) :=
  [ (Script.EnableCLI, ["cmd/cli"]);
    (Script.EnableServer, ["cmd/server"; "internal/handlers"]);
    (Script.EnableWorker, ["cmd/worker"]);
    (Script.EnableDocs, ["docs"]);
    (Script.EnableE2ETests, ["tests"]) ].

Definition pruned_dirs (config : Script.ProjectConfig) : list string :=
  flat_map (fun fd : (Script.ProjectConfig -> bool) * list string =>
              if fst fd config then [] else snd fd) flag_dirs.


(** *** Standard input, line by line *)

Definition read_line (input : string) : string * bool := fst (GoLib.ReadString "010" input).
Definition rest_after (input : string) : string := snd (GoLib.ReadString "010" input).

(** The result of the [n]-th read of a line, counting from 0. *)
Definition nth_line (n : nat) (input : string) : string * bool :=
  read_line (Nat.iter n rest_after input).

(** The answers that decide whether the initializer goes ahead: the
    project name is read first, the module path second, and the
    confirmation thirteenth, after the ten fields between them. *)
Definition name_answer (cwd input : string) : string :=
  let l := nth_line 0 input in
  text_answer (GoLib.filepath_Base cwd) (fst l) (snd l).

Definition path_answer (cwd input : string) : string :=
  let l := nth_line 1 input in
  text_answer ("github.com/your-org/" ++ name_answer cwd input) (fst l) (snd l).

Definition confirmation (input : string) : bool :=
  let l := nth_line 12 input in
  bool_answer false (fst l) (snd l).

(** *** Mutations *)

(** Events that change nothing on disk: output, and the reads of the
    global git identity. *)
Definition quiet_event (e : Runtime.Event) : bool :=
  match e with
  | Runtime.Print _ | Runtime.LogFatal _ => true
  | Runtime.Exec ["git"; "config"; "--global"; _] => true
  | _ => false
  end.

(** From [w] to [w'] the file tree is the same and nothing but quiet
    events happened. *)
Definition no_mutation (w w' : Runtime.World) : Prop :=
  Runtime.fs w' = Runtime.fs w
  /\ exists events,
      Runtime.trace w' = (Runtime.trace w ++ events)%list
      /\ forallb quiet_event events = true.

(** A step is quiet when it never mutates, whatever world it starts in. *)
Definition quiet {A} (m : Runtime.M A) : Prop := forall w, no_mutation w (snd (m w)).

(** The three lines [main] prints first. *)
Definition banner : list Runtime.Event :=
  [ Runtime.Print ("🚀 Go Template Project Initialization" ++ GoLib.newline);
    Runtime.Print ("=====================================" ++ GoLib.newline);
    Runtime.Print ("" ++ GoLib.newline) ].

(** [w'] comes later in the same run as [w]. *)
Definition later (w w' : Runtime.World) : Prop :=
  exists events, Runtime.trace w' = (Runtime.trace w ++ events)%list.

(** A step that always returns (it never leaves through [os.Exit])
    with a value satisfying [P]; the trace only grows. *)
Definition returns_with {A} (P : A -> Prop) (m : Runtime.M A) : Prop :=
  forall w, exists a w', m w = (Runtime.Returned a, w') /\ P a /\ later w w'.

Definition returns {A} (m : Runtime.M A) : Prop := returns_with (fun _ => True) m.

(** *** The end of [initializeProject] *)

(** The five required steps of [initializeProject] on their own. *)
Definition required_steps (env : Script.Env) (config : Script.ProjectConfig)
  : Runtime.M Script.error :=
  Script.check (Script.updateGoMod config)
    (fun e => "failed to update go.mod: " ++ e) (
  Script.check (Script.updateImportPaths config)
    (fun e => "failed to update import paths: " ++ e) (
  Script.check (Script.removeUnwantedComponents config)
    (fun e => "failed to remove unwanted components: " ++ e) (
  Script.check (Script.cleanupTemplateArtifacts env config)
    (fun e => "failed to clean up template artifacts: " ++ e) (
  Script.check (Script.generateReadme env config)
    (fun e => "failed to generate README: " ++ e) (
  Runtime.ret None))))).

Definition git_warning (err : option string) : list Runtime.Event :=
  match err with
  | Some e =>
      [ Runtime.Print ("⚠️  Failed to initialize git: " ++ e ++ GoLib.newline);
        Runtime.Print ("   Continuing without git initialization..." ++ GoLib.newline) ]
  | None => []
  end.

Definition hooks_warning (err : option string) : list Runtime.Event :=
  match err with
  | Some e =>
      [ Runtime.Print ("⚠️  Failed to setup pre-commit hooks: " ++ e ++ GoLib.newline);
        Runtime.Print ("   You can set them up later with: pre-commit install"
                       ++ GoLib.newline) ]
  | None => []
  end.

Definition add_events (w : Runtime.World) (events : list Runtime.Event) : Runtime.World :=
  Runtime.mkWorld (Runtime.stdin w) (Runtime.fs w) (Runtime.trace w ++ events).

(** The world after the script has tried to remove itself and then
    its directory, starting from [w]. *)
Definition self_removal (w : Runtime.World) : Runtime.World :=
  let r1 := FS.Remove (Runtime.fs w) "scripts/init.go" in
  let t1 := match r1 with inl t => t | inr _ => Runtime.fs w end in
  let log1 :=
    match r1 with
    | inl _ => []
    | inr e =>
        [ Runtime.Print ("⚠️  Failed to remove init script: " ++ e ++ GoLib.newline);
          Runtime.Print ("   You can remove it manually: rm scripts/init.go"
                         ++ GoLib.newline) ]
    end in
  let r2 :=
    match t1 !! "scripts" with
    | Some _ => Some (FS.Remove t1 "scripts")
    | None => None
    end in
  let t2 := match r2 with Some (inl t) => t | _ => t1 end in
  let log2 :=
    match r2 with
    | None => []
    | Some (inl _) => [Runtime.OsRemove "scripts"]
    | Some (inr e) =>
        [ Runtime.OsRemove "scripts";
          Runtime.Print ("ℹ️  Could not remove scripts directory: " ++ e ++ GoLib.newline) ]
    end in
  Runtime.mkWorld (Runtime.stdin w) t2
    (Runtime.trace w
     ++ [ Runtime.Print ("🗑️  Removing initialization script..." ++ GoLib.newline);
          Runtime.OsRemove "scripts/init.go" ]
     ++ log1 ++ log2).

(** The environment with other outcomes of the external commands,
    another way for the commit to race its timer, and other
    environment variables. *)
Definition with_externals (env : Script.Env) (getenv : string -> string)
           (run : list string -> Runtime.ExecResult) (sel : Runtime.SelectCase) : Script.Env :=
  Script.mkEnv (Script.os_Getwd env) getenv run sel (Script.index_first env)
    (Script.updateIndexMarkdown env) (Script.updateGettingStartedMarkdown env)
    (Script.readmeText env).

(** What [initializeGit] reports, from the outcomes of its commands. *)
Definition git_report (env : Script.Env) (config : Script.ProjectConfig) : option string :=
  let outcome argv := Script.exec_run env argv in
  let init := outcome ["git"; "init"] in
  let add := outcome ["git"; "add"; "."] in
  let commit :=
    outcome [ "git"; "commit"; "-m";
              "feat: initialize " ++ Script.ProjectName config ++ " project"
              ++ GoLib.newline ++ GoLib.newline ++ "Generated from go-template-project" ] in
  match Runtime.exec_err init with
  | Some e =>
      Some ("failed to initialize git: " ++ e
            ++ " (output: " ++ Runtime.exec_output init ++ ")")
  | None =>
      match Runtime.exec_err add with
      | Some e =>
          Some ("failed to stage files: " ++ e
                ++ " (output: " ++ Runtime.exec_output add ++ ")")
      | None =>
          match Script.commit_select env with
          | Runtime.DoneFirst =>
              match Runtime.exec_err commit with
              | Some e =>
                  Some ("failed to create initial commit: " ++ e
                        ++ " (output: " ++ Runtime.exec_output commit ++ ")")
              | None => None
              end
          | Runtime.TimerFirst _ _ => Some "git commit timed out after 10 seconds"
          end
      end
  end.

(** How the version-control step leaves the world [w5] it starts in. *)
Definition git_step (env : Script.Env) (config : Script.ProjectConfig)
           (w5 w6 : Runtime.World) : Prop :=
  if String.eqb (Script.os_Getenv env "SKIP_GIT_INIT") "" then
    exists w,
      Script.initializeGit env config w5 = (Runtime.Returned (git_report env config), w)
      /\ w6 = add_events w (git_warning (git_report env config))
  else
    w6 = add_events w5
           [Runtime.Print ("ℹ️  Skipping git initialization (test environment)"
                           ++ GoLib.newline)].


(** The error of [initializeProject] comes from one of its five
    required steps. *)
Definition required_failure (e : string) : Prop :=
  exists prefix cause,
    e = prefix ++ cause
    /\ In prefix [ "failed to update go.mod: ";
                   "failed to update import paths: ";
                   "failed to remove unwanted components: ";
                   "failed to clean up template artifacts: ";
                   "failed to generate README: " ].

End SpecWords.

(** ** A small instance: a clone of the template and a run on it *)
Module Sample.
Import Runtime Script.

Definition ok : ExecResult := mkExecResult None "".

(** git works; the hook manager is not installed. *)
Definition sample_run (argv : list string) : ExecResult :=
  match argv with
  | cmd :: _ =>
      if String.eqb cmd "pre-commit"
      then mkExecResult (Some "exec: not found") ""
      else ok
  | [] => ok
  end.

Definition sample_env : Env :=
  mkEnv (inl "/home/dev/my-service") (fun _ => "") sample_run DoneFirst true
        (fun config => "# " ++ ProjectName config)
        (fun config => "Getting started with " ++ ProjectName config)
        (fun config => "# " ++ ProjectName config ++ " (" ++ ModulePath config ++ ")").

Definition sample_config : ProjectConfig :=
  mkProjectConfig "my-service" "github.com/acme/my-service" "A service" "Dev"
                  "dev@example.com" "MIT" true false false true false "".

Definition quote : string := String "034" EmptyString.

Definition main_go : string :=
  "package main" ++ GoLib.newline ++
  "import " ++ quote ++ "github.com/your-org/go-template-project/internal/app" ++ quote
  ++ GoLib.newline.

Definition sample_tree : gmap string FS.node :=
  list_to_map
    [ ("go.mod", FS.File 420 "module github.com/your-org/go-template-project");
      ("README.md", FS.File 420 "# go-template-project");
      ("cmd", FS.Dir);
      ("cmd/cli", FS.Dir);
      ("cmd/cli/main.go", FS.File 420 main_go);
      ("cmd/server", FS.Dir);
      ("cmd/server/main.go", FS.File 420 main_go);
      ("internal", FS.Dir);
      ("internal/app", FS.Dir);
      ("internal/app/app.go", FS.File 420 "package app");
      ("internal/handlers", FS.Dir);
      ("internal/handlers/health.go", FS.File 420 "package handlers");
      ("docs", FS.Dir);
      ("docs/content", FS.Dir);
      ("docs/content/_index.md", FS.File 420 "template docs");
      ("scripts", FS.Dir);
      ("scripts/init.go", FS.File 493 "package main");
      ("tests", FS.Dir);
      ("tests/e2e", FS.Dir);
      ("tests/e2e/init_e2e_test.go", FS.File 420 "package e2e") ].

Definition sample_world : World := mkWorld "" sample_tree [].

End Sample.

(** ** More of [scripts/init.go]: the text helpers of the templates *)
Module Templates.
Import Script.

Definition nl : string := GoLib.newline.

Definition generateComponentDescription (config : ProjectConfig) : string :=
  let components :=
    ((if EnableCLI config
      then ["**CLI Application** - Command-line interface with flags and subcommands"]
      else [])
     ++ (if EnableServer config
         then ["**HTTP Server** - REST API with graceful shutdown and health checks"]
         else [])
     ++ (if EnableWorker config
         then ["**Background Worker** - Long-running process with signal handling"]
         else []))%list in
  match components with
  | [] =>
      "This project provides a foundation for building Go applications "
      ++ "with clean architecture patterns."
  | [component] => "This project includes:" ++ nl ++ nl ++ "- " ++ component
  | _ =>
      fold_left (fun result component => result ++ "- " ++ component ++ nl)
                components ("This project includes multiple components:" ++ nl ++ nl)
  end.

Definition generateRunCommands (config : ProjectConfig) : string :=
  let commands :=
    ((if EnableCLI config then ["make run-cli      # Run CLI application"] else [])
     ++ (if EnableServer config then ["make run-server   # Run HTTP server"] else [])
     ++ (if EnableWorker config then ["make run-worker   # Run background worker"] else []))%list
  in
  match commands with
  | [] => "go run ./..."
  | _ => fold_left (fun result cmd => result ++ "   " ++ cmd ++ nl) commands ""
  end.

End Templates.

(** ** Shapes of strings used in the statements *)
Module Shapes.
Import GoStrings.



(** How many of the three components a configuration selects. *)
Definition selected (config : Script.ProjectConfig) : nat :=
  (if Script.EnableCLI config then 1 else 0)
  + (if Script.EnableServer config then 1 else 0)
  + (if Script.EnableWorker config then 1 else 0).

(** The environment in which [SKIP_GIT_INIT] is set to [value]. *)
Definition with_skip (env : Script.Env) (value : string) : Script.Env :=
  SpecWords.with_externals env
    (fun name => if String.eqb name "SKIP_GIT_INIT" then value else Script.os_Getenv env name)
    (Script.exec_run env) (Script.commit_select env).

(** The run is cancelled. *)
Definition cancelled : Runtime.Event :=
  Runtime.Print ("❌ Initialization cancelled" ++ GoLib.newline).

Definition succeeded : Runtime.Event :=
  Runtime.Print (GoLib.newline ++ "✅ Project initialized successfully!" ++ GoLib.newline).

(** A step can leave through [os.Exit] only with status 0 and right
    after announcing the cancellation. *)
Definition exits_only_cancelled {A} (m : Runtime.M A) : Prop :=
  forall w code w',
    m w = (Runtime.Exited code, w') ->
    code = 0%Z /\ last (Runtime.trace w') = Some cancelled.

(** Every event a step adds satisfies [allowed]. *)
Definition emits_only {A} (allowed : Runtime.Event -> bool) (m : Runtime.M A) : Prop :=
  forall w,
    exists events,
      Runtime.trace (snd (m w)) = (Runtime.trace w ++ events)%list
      /\ forallb allowed events = true.

(** The program that an event starts, if it starts one. *)
Definition command_of (e : Runtime.Event) : option string :=
  match e with
  | Runtime.Exec argv => Some (hd "" argv)
  | _ => None
  end.

Definition allowed_command (programs : list string) (e : Runtime.Event) : bool :=
  match command_of e with
  | Some program => existsb (String.eqb program) programs
  | None => true
  end.

(** A step starts no program but those in [programs]. *)
Definition runs_only {A} (programs : list string) (m : Runtime.M A) : Prop :=
  emits_only (allowed_command programs) m.

(** The warning printed for a command whose failure is tolerated. *)
Definition warning (msg : string) (err : option string) : list Runtime.Event :=
  match err with
  | Some e => [Runtime.Print (msg ++ e ++ GoLib.newline)]
  | None => []
  end.

Definition commit_command (config : Script.ProjectConfig) : list string :=
  [ "git"; "commit"; "-m";
    "feat: initialize " ++ Script.ProjectName config ++ " project"
    ++ GoLib.newline ++ GoLib.newline ++ "Generated from go-template-project" ].

(** The events of the version-control step, from the outcomes of its
    commands and of the race between the commit and its timer. *)
Definition git_events (env : Script.Env) (config : Script.ProjectConfig)
  : list Runtime.Event :=
  let failure argv := Runtime.exec_err (Script.exec_run env argv) in
  let name := ["git"; "config"; "user.name"; Script.Author config] in
  let email := ["git"; "config"; "user.email"; Script.Email config] in
  let remote := ["git"; "remote"; "add"; "origin"; Script.GitRemote config] in
  ([Runtime.Exec ["git"; "init"]]
   ++ match failure ["git"; "init"] with
      | Some _ => []
      | None =>
          (Runtime.Exec name :: warning "⚠️  Failed to set git user.name: " (failure name))
          ++ (Runtime.Exec email
              :: warning "⚠️  Failed to set git user.email: " (failure email))
          ++ (if String.eqb (Script.GitRemote config) "" then []
              else Runtime.Exec remote
                   :: warning "⚠️  Failed to add git remote: " (failure remote))
          ++ [Runtime.Exec ["git"; "add"; "."]]
          ++ match failure ["git"; "add"; "."] with
             | Some _ => []
             | None =>
                 match Script.commit_select env with
                 | Runtime.DoneFirst => [Runtime.Exec (commit_command config)]
                 | Runtime.TimerFirst started kill_err =>
                     (if started then [Runtime.Exec (commit_command config)] else [])
                     ++ [Runtime.TimerFired Script.commitTimeout]
                     ++ (if started then
                           Runtime.Kill (commit_command config)
                           :: warning "Warning: failed to kill git commit process: " kill_err
                         else [])
                 end
             end
      end)%list.

(** The events of the hook step. *)
Definition hook_events (env : Script.Env) : list Runtime.Event :=
  (Runtime.Exec ["pre-commit"; "--version"]
   :: match Runtime.exec_err (Script.exec_run env ["pre-commit"; "--version"]) with
      | Some _ => []
      | None => [Runtime.Exec ["pre-commit"; "install"]]
      end).

(** A step changes the tree at most at the paths in [touched]. *)
Definition touches_only {A} (touched : list string) (m : Runtime.M A) : Prop :=
  forall w path,
    ~ In path touched ->
    Runtime.fs (snd (m w)) !! path = Runtime.fs w !! path.






Definition index_md : string := "docs/content/_index.md".
Definition getting_started_md : string := "docs/content/docs/getting-started.md".


(** A step never brings a path into being. *)
Definition never_creates {A} (m : Runtime.M A) : Prop :=
  forall w path,
    Runtime.fs w !! path = None -> Runtime.fs (snd (m w)) !! path = None.

Definition init_test : string := "tests/e2e/init_e2e_test.go".
Definition cli_test : string := "tests/e2e/cli_e2e_test.go".
Definition server_test : string := "tests/e2e/server_e2e_test.go".
Definition worker_test : string := "tests/e2e/worker_e2e_test.go".

(** The paths that [cleanupTemplateArtifacts] may change under a
    configuration. *)
Definition cleanup_targets (config : Script.ProjectConfig) : list string :=
  (init_test
   :: (if Script.EnableE2ETests config then
         (if Script.EnableCLI config then [] else [cli_test])
         ++ (if Script.EnableServer config then [] else [server_test])
         ++ (if Script.EnableWorker config then [] else [worker_test])
       else [])
   ++ (if Script.EnableDocs config then [index_md; getting_started_md] else []))%list.

End Shapes.

(** * Properties *)

(** ** The derivative matcher decides the language of a pattern *)
Section MatcherCorrect.
Import GoStrings GoRegexp.

Lemma nullable_Matches r : nullable r = true <-> Matches r [].
Proof.
  induction r; simpl.
  - split; intros H; [discriminate | inversion H].
  - split; intros _; [constructor | reflexivity].
  - split; intros H; [discriminate | inversion H].
  - rewrite andb_true_iff, IHr1, IHr2. split.
    + intros [H1 H2]. change (@nil ascii) with (@nil ascii ++ [])%list.
      constructor; assumption.
    + intros H. inversion H; subst.
      match goal with E : (_ ++ _)%list = [] |- _ => apply app_eq_nil in E as [-> ->] end.
      auto.
  - rewrite orb_true_iff, IHr1, IHr2. split.
    + intros [H | H]; [apply MAltL | apply MAltR]; assumption.
    + intros H; inversion H; subst; auto.
  - split; intros _; [constructor | reflexivity].
Qed.

Lemma Matches_Star_cons r c s :
  Matches (Star r) (c :: s) ->
  exists s1 s2, s = (s1 ++ s2)%list /\ Matches r (c :: s1) /\ Matches (Star r) s2.
Proof.
  intros H. remember (Star r) as r' eqn:Er. remember (c :: s) as w eqn:Ew.
  revert s Ew. induction H; intros s' Ew; try discriminate.
  inversion Er; subst r0.
  destruct s1 as [| a s1].
  - simpl in Ew. apply IHMatches2; auto.
  - simpl in Ew. inversion Ew; subst. exists s1, s2. auto.
Qed.

Lemma deriv_Matches c r : forall s, Matches (deriv c r) s <-> Matches r (c :: s).
Proof.
  induction r; intros s; simpl.
  - split; intros H; inversion H.
  - split; intros H; inversion H.
  - destruct (in_class ranges c) eqn:E; split; intros H; inversion H; subst.
    + constructor; assumption.
    + constructor.
    + congruence.
  - assert (HL : forall s, Matches (Cat (deriv c r1) r2) s ->
                           Matches (Cat r1 r2) (c :: s)).
    { intros w H. inversion H; subst.
      change (c :: s1 ++ s2)%list with ((c :: s1) ++ s2)%list.
      constructor; [apply IHr1 |]; assumption. }
    assert (HR : forall s, Matches (Cat r1 r2) (c :: s) ->
                           Matches (Cat (deriv c r1) r2) s
                           \/ (Matches r1 [] /\ Matches r2 (c :: s))).
    { intros w H. inversion H; subst. destruct s1 as [| a s1]; simpl in *.
      - right. subst. auto.
      - left. match goal with E : (_ :: _)%list = _ |- _ => inversion E; subst end.
        constructor; [apply IHr1 |]; assumption. }
    destruct (nullable r1) eqn:N; split; intros H.
    + inversion H; subst; [apply HL; assumption |].
      change (c :: s) with ([] ++ c :: s)%list.
      constructor; [apply nullable_Matches; assumption | apply IHr2; assumption].
    + destruct (HR _ H) as [H1 | [_ H2]]; [apply MAltL | apply MAltR, IHr2]; assumption.
    + apply HL; assumption.
    + destruct (HR _ H) as [H1 | [H1 _]]; [assumption |].
      apply nullable_Matches in H1. congruence.
  - split; intros H; inversion H; subst;
      (apply MAltL, IHr1; assumption) || (apply MAltR, IHr2; assumption).
  - split; intros H.
    + inversion H; subst.
      change (c :: s1 ++ s2)%list with ((c :: s1) ++ s2)%list.
      constructor; [apply IHr |]; assumption.
    + apply Matches_Star_cons in H as (s1 & s2 & -> & H1 & H2).
      constructor; [apply IHr |]; assumption.
Qed.

Lemma matches_Matches : forall s r, matches r s = true <-> Matches r s.
Proof.
  induction s as [| c s IH]; intros r; simpl.
  - apply nullable_Matches.
  - rewrite IH. apply deriv_Matches.
Qed.

Lemma Matches_Class_inv rs s :
  Matches (Class rs) s <-> exists c, s = [c] /\ in_class rs c = true.
Proof.
  split.
  - intros H; inversion H; subst; eauto.
  - intros (c & -> & H); constructor; assumption.
Qed.

Lemma Matches_Cat_inv r1 r2 s :
  Matches (Cat r1 r2) s <->
  exists s1 s2, s = (s1 ++ s2)%list /\ Matches r1 s1 /\ Matches r2 s2.
Proof.
  split.
  - intros H; inversion H; subst; eauto.
  - intros (s1 & s2 & -> & H1 & H2); constructor; assumption.
Qed.

Lemma Matches_Star_Class rs s :
  Matches (Star (Class rs)) s <-> forallb (in_class rs) s = true.
Proof.
  split.
  - intros H. remember (Star (Class rs)) as r eqn:Er.
    induction H; try discriminate; auto.
    inversion Er; subst. inversion H; subst. simpl.
    rewrite IHMatches2 by reflexivity.
    match goal with E : in_class _ _ = true |- _ => rewrite E end. reflexivity.
  - induction s as [| c s IH]; simpl; intros H; [constructor |].
    apply andb_true_iff in H as [Hc Hs].
    change (c :: s) with ([c] ++ s)%list.
    constructor; [constructor; assumption | auto].
Qed.

End MatcherCorrect.

(** ** Validation of the project name and of the module path *)
Section ValidationFacts.
Import GoStrings GoRegexp Validation.

Lemma Compile_projectNamePattern : Compile projectNamePattern = Some projectNameRegex.
Proof. reflexivity. Qed.

Lemma Compile_modulePathPattern : Compile modulePathPattern = Some modulePathRegex.
Proof. reflexivity. Qed.

Lemma eqb_range c d : in_range d d c = Ascii.eqb c d.
Proof.
  unfold in_range, byte_le. destruct (Ascii.eqb_spec c d) as [-> | Hne].
  - rewrite N.leb_refl. reflexivity.
  - apply andb_false_iff.
    destruct (N.leb_spec (N_of_ascii d) (N_of_ascii c)) as [H1 | H1]; [| now left].
    destruct (N.leb_spec (N_of_ascii c) (N_of_ascii d)) as [H2 | H2]; [| now right].
    exfalso. apply Hne.
    rewrite <- (ascii_N_embedding c), <- (ascii_N_embedding d).
    f_equal. lia.
Qed.

Lemma in_alnum_ranges c : in_class alnum_ranges c = is_alnum c.
Proof. unfold in_class, is_alnum; simpl. rewrite orb_false_r, orb_assoc. reflexivity. Qed.

Lemma in_name_ranges c : in_class name_ranges c = is_name_byte c.
Proof.
  unfold in_class, is_name_byte, is_alnum; simpl.
  rewrite orb_false_r, eqb_range, !orb_assoc. reflexivity.
Qed.

Lemma in_host_ranges c : in_class host_ranges c = is_host_byte c.
Proof.
  unfold in_class, is_host_byte, is_alnum; simpl.
  rewrite orb_false_r, !eqb_range, !orb_assoc. reflexivity.
Qed.

Lemma forallb_ext_eq {A} (f g : A -> bool) l :
  (forall x, f x = g x) -> forallb f l = forallb g l.
Proof. intros E; induction l; simpl; [| rewrite E, IHl]; reflexivity. Qed.

(** A word in the explicit form [a :: mid ++ [b]]. *)
Lemma bounded_word_iff interior w :
  bounded_word interior w = true <->
  exists a mid b, w = a :: (mid ++ [b])%list /\ is_alnum a = true
                  /\ forallb interior mid = true /\ is_alnum b = true.
Proof.
  split.
  - destruct w as [| a [| c rest]]; simpl; try discriminate.
    intros H. apply andb_true_iff in H as [H Hb]. apply andb_true_iff in H as [Ha Hm].
    exists a, (removelast (c :: rest)), (List.last (c :: rest) a).
    repeat split; auto.
    f_equal. apply app_removelast_last. discriminate.
  - intros (a & mid & b & -> & Ha & Hm & Hb).
    unfold bounded_word. destruct (mid ++ [b])%list as [| c rest] eqn:E.
    + destruct mid; discriminate.
    + rewrite <- E, removelast_last, last_last, Ha, Hm, Hb. reflexivity.
Qed.

Lemma word_regex_last interior f w :
  (forall c, in_class interior c = f c) ->
  Matches (word_regex interior None) w <-> bounded_word f w = true.
Proof.
  intros Hf. unfold word_regex. rewrite bounded_word_iff, Matches_Cat_inv. split.
  - intros (s1 & s2 & -> & H1 & H2).
    apply Matches_Class_inv in H1 as (a & -> & Ha).
    apply Matches_Cat_inv in H2 as (m & s3 & -> & Hm & H3).
    apply Matches_Class_inv in H3 as (b & -> & Hb).
    apply Matches_Star_Class in Hm.
    rewrite in_alnum_ranges in Ha, Hb. rewrite (forallb_ext_eq _ f) in Hm by assumption.
    exists a, m, b. auto.
  - intros (a & mid & b & -> & Ha & Hm & Hb).
    exists [a], (mid ++ [b])%list. split; [reflexivity |]. split.
    + apply Matches_Class_inv. exists a. rewrite in_alnum_ranges. auto.
    + constructor.
      * apply Matches_Star_Class. rewrite (forallb_ext_eq _ f); assumption.
      * apply Matches_Class_inv. exists b. rewrite in_alnum_ranges. auto.
Qed.

Lemma word_regex_slash interior f r w :
  (forall c, in_class interior c = f c) ->
  Matches (word_regex interior (slash_then r)) w <->
  exists seg rest, w = (seg ++ "/"%char :: rest)%list
                   /\ bounded_word f seg = true /\ Matches r rest.
Proof.
  intros Hf. unfold word_regex, slash_then. split.
  - intros H.
    apply Matches_Cat_inv in H as (s1 & s2 & -> & H1 & H2).
    apply Matches_Class_inv in H1 as (a & -> & Ha).
    apply Matches_Cat_inv in H2 as (m & s3 & -> & Hm & H3).
    apply Matches_Cat_inv in H3 as (s4 & s5 & -> & H4 & H5).
    apply Matches_Class_inv in H4 as (b & -> & Hb).
    apply Matches_Cat_inv in H5 as (s6 & rest & -> & H6 & Hr).
    apply Matches_Class_inv in H6 as (sl & -> & Hsl).
    unfold in_class in Hsl; simpl in Hsl. rewrite orb_false_r, eqb_range in Hsl.
    apply Ascii.eqb_eq in Hsl; subst sl.
    apply Matches_Star_Class in Hm.
    rewrite in_alnum_ranges in Ha, Hb. rewrite (forallb_ext_eq _ f) in Hm by assumption.
    exists (a :: m ++ [b])%list, rest. split; [| split; [| assumption]].
    + simpl. rewrite <- app_assoc. reflexivity.
    + apply bounded_word_iff. exists a, m, b. auto.
  - intros (seg & rest & -> & Hseg & Hr).
    apply bounded_word_iff in Hseg as (a & mid & b & -> & Ha & Hm & Hb).
    replace ((a :: mid ++ [b]) ++ "/"%char :: rest)%list
      with ([a] ++ mid ++ [b] ++ ["/"%char] ++ rest)%list
      by (simpl; rewrite <- app_assoc; reflexivity).
    constructor; [apply Matches_Class_inv; exists a; rewrite in_alnum_ranges; auto |].
    constructor; [apply Matches_Star_Class; rewrite (forallb_ext_eq _ f); assumption |].
    constructor; [apply Matches_Class_inv; exists b; rewrite in_alnum_ranges; auto |].
    constructor; [| assumption].
    apply Matches_Class_inv. exists "/"%char. auto.
Qed.

(** *** Splitting at slashes *)

Definition no_slash (l : list ascii) : bool :=
  forallb (fun c => negb (Ascii.eqb c "/")) l.

Lemma split_on_not_nil sep l : split_on sep l <> [].
Proof.
  destruct l as [| c l]; simpl; [discriminate |].
  destruct (Ascii.eqb c sep); [discriminate |].
  destruct (split_on sep l); discriminate.
Qed.

Lemma split_on_app h rest :
  no_slash h = true ->
  split_on "/" (h ++ "/"%char :: rest)%list = h :: split_on "/" rest.
Proof.
  induction h as [| c h IH]; simpl; intros H; [reflexivity |].
  apply andb_true_iff in H as [Hc Hh].
  apply negb_true_iff in Hc. rewrite Hc, (IH Hh). reflexivity.
Qed.

Lemma split_on_single h : no_slash h = true -> split_on "/" h = [h].
Proof.
  induction h as [| c h IH]; simpl; intros H; [reflexivity |].
  apply andb_true_iff in H as [Hc Hh].
  apply negb_true_iff in Hc. rewrite Hc, (IH Hh). reflexivity.
Qed.

Lemma split_on_cons_inv l : forall h t,
  split_on "/" l = h :: t ->
  (t = [] /\ l = h) \/
  (exists rest, l = (h ++ "/"%char :: rest)%list /\ split_on "/" rest = t).
Proof.
  induction l as [| c l IH]; simpl; intros h t H.
  - inversion H; subst. left; auto.
  - destruct (Ascii.eqb_spec c "/") as [-> | Hne].
    + inversion H; subst. right. exists l. auto.
    + destruct (split_on "/" l) as [| w ws] eqn:E; [now apply split_on_not_nil in E |].
      injection H as <- <-.
      destruct (IH w ws eq_refl) as [[-> ->] | (rest & -> & Hr)].
      * left; auto.
      * right. exists rest. auto.
Qed.

Lemma alnum_not_slash c : is_alnum c = true -> Ascii.eqb c "/" = false.
Proof.
  destruct (Ascii.eqb_spec c "/") as [-> | _]; [discriminate | reflexivity].
Qed.

Lemma host_byte_not_slash c : is_host_byte c = true -> Ascii.eqb c "/" = false.
Proof.
  destruct (Ascii.eqb_spec c "/") as [-> | _]; [discriminate | reflexivity].
Qed.

Lemma name_byte_is_host_byte c : is_name_byte c = true -> is_host_byte c = true.
Proof.
  unfold is_name_byte, is_host_byte. intros ->. reflexivity.
Qed.

Lemma name_byte_not_slash c : is_name_byte c = true -> Ascii.eqb c "/" = false.
Proof. intros H. apply host_byte_not_slash, name_byte_is_host_byte, H. Qed.

Lemma bounded_word_no_slash f w :
  (forall c, f c = true -> Ascii.eqb c "/" = false) ->
  bounded_word f w = true -> no_slash w = true.
Proof.
  intros Hf H. apply bounded_word_iff in H as (a & mid & b & -> & Ha & Hm & Hb).
  unfold no_slash. simpl. rewrite (alnum_not_slash _ Ha). simpl.
  rewrite forallb_app. simpl. rewrite (alnum_not_slash _ Hb). simpl.
  rewrite andb_true_r. rewrite forallb_forall in *.
  intros c Hc. rewrite (Hf c); auto.
Qed.

Lemma modulePathRegex_shape l :
  Matches modulePathRegex l <->
  match split_on "/" l with
  | [host; org; repo] =>
      bounded_word is_host_byte host && bounded_word is_host_byte org
      && bounded_word is_name_byte repo = true
  | _ => False
  end.
Proof.
  unfold modulePathRegex.
  rewrite (word_regex_slash _ is_host_byte) by apply in_host_ranges.
  split.
  - intros (host & r1 & -> & Hh & H1).
    apply (word_regex_slash _ is_host_byte) in H1 as (org & r2 & -> & Ho & H2);
      [| apply in_host_ranges].
    apply (word_regex_last _ is_name_byte) in H2; [| apply in_name_ranges].
    rewrite split_on_app by (eapply bounded_word_no_slash; eauto using host_byte_not_slash).
    rewrite split_on_app by (eapply bounded_word_no_slash; eauto using host_byte_not_slash).
    rewrite split_on_single
      by (eapply bounded_word_no_slash; eauto using name_byte_not_slash).
    rewrite Hh, Ho, H2. reflexivity.
  - destruct (split_on "/" l) as [| host [| org [| repo [| ? ?]]]] eqn:E; try contradiction.
    intros H. apply andb_true_iff in H as [H Hr]. apply andb_true_iff in H as [Hh Ho].
    apply split_on_cons_inv in E as [[E _] | (r1 & -> & E)]; [discriminate |].
    apply split_on_cons_inv in E as [[E _] | (r2 & -> & E)]; [discriminate |].
    apply split_on_cons_inv in E as [[_ ->] | (r3 & _ & E)];
      [| now apply split_on_not_nil in E].
    exists host, (org ++ "/"%char :: repo)%list. repeat split; auto.
    apply (word_regex_slash _ is_host_byte); [apply in_host_ranges |].
    exists org, repo. repeat split; auto.
    apply (word_regex_last _ is_name_byte); [apply in_name_ranges | assumption].
Qed.

Lemma bool_eq_iff (a b : bool) : (a = true <-> b = true) -> a = b.
Proof.
  destruct a, b; intros [H1 H2]; try reflexivity.
  - symmetry. apply H1. reflexivity.
  - apply H2. reflexivity.
Qed.

Lemma isValidProjectName_shape name : isValidProjectName name = name_shape name.
Proof.
  unfold isValidProjectName, MatchString, name_shape.
  rewrite Compile_projectNamePattern.
  assert (E : matches projectNameRegex (list_ascii_of_string name)
              = bounded_word is_name_byte (list_ascii_of_string name)).
  { apply bool_eq_iff. rewrite matches_Matches.
    apply (word_regex_last _ is_name_byte), in_name_ranges. }
  rewrite E. destruct name as [| c name]; simpl; [reflexivity |].
  apply andb_true_r.
Qed.

Lemma isValidModulePath_shape path : isValidModulePath path = path_shape path.
Proof.
  unfold isValidModulePath, MatchString, path_shape.
  rewrite Compile_modulePathPattern.
  apply bool_eq_iff. rewrite matches_Matches, modulePathRegex_shape.
  destruct (split_on "/" (list_ascii_of_string path))
    as [| host [| org [| repo [| ? ?]]]]; split; intros H;
    try contradiction; try discriminate; assumption.
Qed.

End ValidationFacts.

(** C2, as amended.  [isValidProjectName] accepts exactly the strings of
    the pattern [^[a-zA-Z0-9][a-zA-Z0-9-]*[a-zA-Z0-9]$]: the language of
    the compiled pattern, which is a first and a last alphanumeric byte
    with alphanumerics and hyphens between them.  Such a string has at
    least two bytes, so the one-letter name "a" is rejected, as are
    "-abc" and "abc-". *)
Theorem isValidProjectName_matches_pattern :
  (forall name,
      Validation.isValidProjectName name = true <->
      GoRegexp.Matches Validation.projectNameRegex (list_ascii_of_string name))
  /\ (forall name, Validation.isValidProjectName name = Validation.name_shape name)
  /\ (forall name, Validation.isValidProjectName name = true -> 2 <= String.length name)
  /\ Validation.isValidProjectName "a" = false
  /\ Validation.isValidProjectName "-abc" = false
  /\ Validation.isValidProjectName "abc-" = false
  /\ Validation.isValidProjectName "ab" = true.
Proof.
  split; [| split; [| split]].
  - intros name. rewrite isValidProjectName_shape. unfold Validation.name_shape.
    symmetry. apply (word_regex_last _ Validation.is_name_byte), in_name_ranges.
  - apply isValidProjectName_shape.
  - intros name. rewrite isValidProjectName_shape. unfold Validation.name_shape.
    destruct name as [| a [| b name]]; simpl; try discriminate. intros _. lia.
  - repeat split; reflexivity.
Qed.

(** C2, as stated, fails: the pattern needs two alphanumeric bytes, and
    the single-character name "a" is rejected. *)
Lemma isValidProjectName_single_char_rejected :
  Validation.isValidProjectName "a" = false
  /\ ~ GoRegexp.Matches Validation.projectNameRegex (list_ascii_of_string "a").
Proof.
  split; [reflexivity |].
  intros H. apply matches_Matches in H. discriminate.
Qed.

(** C3, as amended.  [isValidModulePath] accepts a string if and only if
    it splits at slashes into exactly three segments, each of at least
    two bytes with an alphanumeric first and last byte; inside, the
    first two segments allow alphanumerics, '-', '_' and '.', the third
    only alphanumerics and '-'. *)
Theorem isValidModulePath_three_segments :
  (forall path, Validation.isValidModulePath path = Validation.path_shape path)
  /\ Validation.isValidModulePath "github.com/org/repo" = true
  /\ Validation.isValidModulePath "invalid-module-path-no-slash" = false
  /\ Validation.isValidModulePath "a/b" = false.
Proof.
  split; [apply isValidModulePath_shape | repeat split; reflexivity].
Qed.

(** C3, as stated, fails: "github.com/org/my.repo" and "a/b/c" are three
    slash-separated segments bounded by alphanumerics with only '.'
    inside, and both are rejected. *)
Lemma isValidModulePath_rejects_spec_shaped_paths :
  Validation.spec_module_path "github.com/org/my.repo" = true
  /\ Validation.isValidModulePath "github.com/org/my.repo" = false
  /\ Validation.spec_module_path "a/b/c" = true
  /\ Validation.isValidModulePath "a/b/c" = false.
Proof. repeat split; reflexivity. Qed.

(** ** The prompts *)
Section PromptFacts.
Import GoStrings GoLib Runtime Script SpecWords.

Lemma isSpace_toLowerByte c : isSpace (toLowerByte c) = isSpace c.
Proof. destruct c as [[] [] [] [] [] [] [] []]; reflexivity. Qed.

Lemma TrimLeft_ToLower s : TrimLeft (ToLower s) = ToLower (TrimLeft s).
Proof.
  induction s as [| c s IH]; simpl; [reflexivity |].
  rewrite isSpace_toLowerByte. destruct (isSpace c); [assumption | reflexivity].
Qed.

Lemma TrimRight_ToLower s : TrimRight (ToLower s) = ToLower (TrimRight s).
Proof.
  induction s as [| c s IH]; simpl; [reflexivity |].
  rewrite IH, isSpace_toLowerByte.
  destruct (TrimRight s); simpl; [destruct (isSpace c) |]; reflexivity.
Qed.

Lemma TrimSpace_ToLower s : TrimSpace (ToLower s) = ToLower (TrimSpace s).
Proof. unfold TrimSpace. rewrite TrimLeft_ToLower. apply TrimRight_ToLower. Qed.

Lemma toLowerByte_y c :
  Ascii.eqb (toLowerByte c) "y" = Ascii.eqb c "y" || Ascii.eqb c "Y".
Proof. destruct c as [[] [] [] [] [] [] [] []]; reflexivity. Qed.

Lemma toLowerByte_e c :
  Ascii.eqb (toLowerByte c) "e" = Ascii.eqb c "e" || Ascii.eqb c "E".
Proof. destruct c as [[] [] [] [] [] [] [] []]; reflexivity. Qed.

Lemma toLowerByte_s c :
  Ascii.eqb (toLowerByte c) "s" = Ascii.eqb c "s" || Ascii.eqb c "S".
Proof. destruct c as [[] [] [] [] [] [] [] []]; reflexivity. Qed.

Lemma ToLower_empty s : String.eqb (ToLower s) "" = String.eqb s "".
Proof. destruct s; reflexivity. Qed.

Lemma ToLower_yes s :
  String.eqb (ToLower s) "y" || String.eqb (ToLower s) "yes"
  = existsb (String.eqb s) yes_answers.
Proof.
  destruct s as [| c1 [| c2 [| c3 [| c4 s]]]]; try reflexivity;
    cbn [ToLower existsb yes_answers String.eqb];
    rewrite ?toLowerByte_y, ?toLowerByte_e, ?toLowerByte_s;
    repeat match goal with
           | |- context [Ascii.eqb ?a ?b] => destruct (Ascii.eqb a b)
           end; reflexivity.
Qed.

Lemma promptBool_run question defaultValue w :
  promptBool question defaultValue w =
  let '(line, ok, rest) := ReadString "010" (stdin w) in
  (Returned (bool_answer defaultValue line ok),
   mkWorld rest (fs w)
     (trace w ++ [Print (question ++ " [" ++ (if defaultValue then "Y/n" else "y/N") ++ "]: ")])).
Proof.
  unfold promptBool, bind, Printf, emit, reader_ReadString, bool_answer. simpl.
  destruct (ReadString "010" (stdin w)) as [[line ok] rest]. simpl.
  destruct ok; simpl; [| reflexivity].
  rewrite TrimSpace_ToLower, ToLower_empty.
  destruct (String.eqb (TrimSpace line) ""); [reflexivity |].
  unfold ret. rewrite ToLower_yes. reflexivity.
Qed.

End PromptFacts.


(** ** Textual replacement *)
Section ReplaceFacts.
Import GoStrings.
Local Arguments String.append !s1 s2 : simpl nomatch.


Lemma append_assoc (a b c : string) : (a ++ b) ++ c = a ++ b ++ c.
Proof. induction a; simpl; congruence. Qed.



Lemma HasPrefix_split s p : HasPrefix s p = true -> exists b, s = p ++ b.
Proof.
  revert s. induction p as [| a p IH]; intros s H; simpl in *.
  - exists s. reflexivity.
  - destruct s as [| c s]; [discriminate |].
    apply andb_true_iff in H as [Hc Hp]. apply Ascii.eqb_eq in Hc. subst c.
    destruct (IH _ Hp) as [b ->]. exists b. reflexivity.
Qed.




Lemma replace_scan_miss old new c s :
  HasPrefix (String c s) old = false ->
  replace_scan old new 0 (String c s) = String c (replace_scan old new 0 s).
Proof. intros H. cbn [replace_scan]. rewrite H. reflexivity. Qed.



Lemma replace_scan_absent old new s :
  Contains s old = false -> replace_scan old new 0 s = s.
Proof.
  induction s as [| a s IH]; intros H; [reflexivity |].
  cbn [Contains] in H. apply orb_false_iff in H as [Hp Hc].
  rewrite replace_scan_miss by assumption. rewrite IH by assumption. reflexivity.
Qed.


Lemma ReplaceAll_absent s old new :
  old <> "" -> Contains s old = false -> ReplaceAll s old new = s.
Proof.
  intros Hne H. unfold ReplaceAll. destruct (String.eqb old new); [reflexivity |].
  destruct old; [congruence |]. apply replace_scan_absent. assumption.
Qed.

End ReplaceFacts.

(** ** The walk over the tree *)
Section WalkFacts.
Import GoStrings GoLib Runtime Script SpecWords.

Lemma walk_insert_perm e l : FS.walk_insert e l ≡ₚ e :: l.
Proof.
  induction l as [| e' l IH]; simpl; [reflexivity |].
  destruct (FS.walk_leb e.1 e'.1); [reflexivity |].
  rewrite IH. apply Permutation_swap.
Qed.

Lemma walk_order_perm (t : gmap string FS.node) : FS.walk_order t ≡ₚ map_to_list t.
Proof.
  unfold FS.walk_order. induction (map_to_list t) as [| e l IH]; simpl; [reflexivity |].
  rewrite walk_insert_perm, IH. reflexivity.
Qed.

Lemma walk_order_NoDup (t : gmap string FS.node) : NoDup (FS.walk_order t).*1.
Proof. rewrite walk_order_perm. apply NoDup_fst_map_to_list. Qed.

Lemma walk_order_lookup (t : gmap string FS.node) k n :
  (k, n) ∈ FS.walk_order t <-> t !! k = Some n.
Proof. rewrite walk_order_perm. apply elem_of_map_to_list. Qed.

Lemma world_eta w : mkWorld (stdin w) (fs w) (trace w) = w.
Proof. destruct w; reflexivity. Qed.

Lemma rewriteWalkFn_run newPath path info w :
  fs w !! path = Some info ->
  rewriteWalkFn newPath path info w =
  (Returned None,
   mkWorld (stdin w) (<[path := rewritten newPath path info]> (fs w))
     (trace w ++ (if changed newPath (path, info) then [OsWriteFile path] else []))).
Proof.
  intros Hlook. unfold rewriteWalkFn, rewritten, changed. simpl.
  destruct info as [mode content |]; simpl.
  - destruct (HasSuffix path ".go"); simpl.
    + unfold bind, os_ReadFile, get_fs, ret, FS.ReadFile. simpl. rewrite Hlook.
      destruct (String.eqb_spec (ReplaceAll content oldPath newPath) content) as [E | NE];
        simpl.
      * rewrite E, insert_id, app_nil_r, world_eta by assumption. reflexivity.
      * unfold os_WriteFile, bind, emit, get_fs, put_fs, ret, FS.WriteFile. simpl.
        rewrite Hlook. reflexivity.
    + unfold ret. rewrite insert_id, app_nil_r, world_eta by assumption. reflexivity.
  - unfold ret. rewrite insert_id, app_nil_r, world_eta by assumption. reflexivity.
Qed.

Lemma rewrite_all_lookup_other newPath l : forall t k,
  k ∉ l.*1 -> rewrite_all newPath l t !! k = t !! k.
Proof.
  induction l as [| [k' n'] l IH]; intros t k Hk; simpl; [reflexivity |].
  rewrite fmap_cons in Hk. apply not_elem_of_cons in Hk as [Hne Hk].
  unfold rewrite_all in *. simpl. rewrite IH by assumption.
  apply lookup_insert_ne. simpl in Hne. congruence.
Qed.

Lemma rewrite_all_lookup_entry newPath l : forall t k n,
  NoDup l.*1 -> (k, n) ∈ l ->
  rewrite_all newPath l t !! k = Some (rewritten newPath k n).
Proof.
  induction l as [| [k' n'] l IH]; intros t k n Hnd Hin; [by apply elem_of_nil in Hin |].
  rewrite fmap_cons in Hnd. apply NoDup_cons in Hnd as [Hk' Hnd].
  apply elem_of_cons in Hin as [Heq | Hin].
  - injection Heq as -> ->. unfold rewrite_all. simpl.
    fold (rewrite_all newPath l (<[k' := rewritten newPath k' n']> t)).
    rewrite rewrite_all_lookup_other by assumption. apply lookup_insert_eq.
  - unfold rewrite_all. simpl. apply IH; assumption.
Qed.

Lemma walk_entries_run newPath l : forall w,
  NoDup l.*1 ->
  (forall k n, (k, n) ∈ l -> fs w !! k = Some n) ->
  walk_entries (rewriteWalkFn newPath) l w =
  (Returned None,
   mkWorld (stdin w) (rewrite_all newPath l (fs w))
     (trace w ++ map OsWriteFile (map fst (List.filter (changed newPath) l)))).
Proof.
  induction l as [| [k n] l IH]; intros w Hnd Hl.
  - simpl. unfold ret. rewrite app_nil_r, world_eta. reflexivity.
  - rewrite fmap_cons in Hnd. apply NoDup_cons in Hnd as [Hk Hnd].
    cbn [walk_entries]. unfold bind at 1.
    rewrite rewriteWalkFn_run by (apply Hl; left).
    rewrite IH; [| assumption |].
    + simpl. destruct (changed newPath (k, n)); simpl;
        rewrite <- ?app_assoc; reflexivity.
    + intros k2 n2 Hin. simpl. rewrite lookup_insert_ne.
      * apply Hl. right. assumption.
      * intros ->. apply Hk. apply list_elem_of_fmap. exists (k2, n2). auto.
Qed.

Lemma rewrite_all_walk_order newPath (t : gmap string FS.node) :
  rewrite_all newPath (FS.walk_order t) t = rewrite_tree newPath t.
Proof.
  apply map_eq. intros k. unfold rewrite_tree. rewrite map_lookup_imap.
  destruct (t !! k) as [n |] eqn:E; simpl.
  - apply rewrite_all_lookup_entry; [apply walk_order_NoDup | by apply walk_order_lookup].
  - rewrite rewrite_all_lookup_other; [assumption |].
    intros Hin. apply list_elem_of_fmap in Hin as ([k' n'] & -> & Hin).
    apply walk_order_lookup in Hin. simpl in E. congruence.
Qed.

Lemma updateImportPaths_run config w :
  updateImportPaths config w =
  (Returned None,
   mkWorld (stdin w) (rewrite_tree (ModulePath config) (fs w))
     (trace w ++ map OsWriteFile (written_back (ModulePath config) (fs w)))).
Proof.
  unfold updateImportPaths, filepath_Walk_dot, bind, get_fs.
  cbn [walk_entries]. unfold bind at 1.
  change (rewriteWalkFn (ModulePath config) "." FS.Dir w) with (Returned (@None string), w).
  cbv beta iota.
  rewrite walk_entries_run.
  - rewrite rewrite_all_walk_order. reflexivity.
  - apply walk_order_NoDup.
  - intros k n. apply walk_order_lookup.
Qed.

End WalkFacts.

(** ** Paths and names *)
Section SuffixFacts.
Import GoStrings GoLib.




End SuffixFacts.


(** ** The component pruner *)
Section PrunerFacts.
Import GoStrings GoLib Runtime Script SpecWords.
Local Arguments String.append !s1 s2 : simpl nomatch.



Lemma foldl_snoc_events {A} (f : A -> Event) dirs : forall tr,
  foldl (fun tr d => tr ++ [f d])%list tr dirs = (tr ++ map f dirs)%list.
Proof.
  induction dirs as [| d dirs IH]; intros tr; simpl.
  - rewrite app_nil_r. reflexivity.
  - rewrite IH, <- app_assoc. reflexivity.
Qed.

Lemma removeUnwantedComponents_run config w :
  removeUnwantedComponents config w =
  (Returned None,
   mkWorld (stdin w) (foldl FS.RemoveAll (fs w) (pruned_dirs config))
     (trace w ++ map OsRemoveAll (pruned_dirs config))).
Proof.
  rewrite <- foldl_snoc_events.
  destruct config as [? ? ? ? ? ? cli server worker docs e2e ?].
  unfold removeUnwantedComponents, pruned_dirs, flag_dirs. cbn [flat_map fst snd].
  cbn [EnableCLI EnableServer EnableWorker EnableDocs EnableE2ETests].
  destruct w as [input t tr].
  destruct cli, server, worker, docs, e2e; reflexivity.
Qed.









End PrunerFacts.



(** ** Running the script: gathering *)
Section GatherFacts.
Import GoStrings GoLib Runtime Script Validation SpecWords.

Lemma bind_run {A B} (m : M A) (k : A -> M B) w a w1 :
  m w = (Returned a, w1) -> bind m k w = k a w1.
Proof. unfold bind. intros ->. reflexivity. Qed.

Lemma bind_exit {A B} (m : M A) (k : A -> M B) w code w1 :
  m w = (Exited code, w1) -> bind m k w = (Exited code, w1).
Proof. unfold bind. intros ->. reflexivity. Qed.

Lemma emit_run e w : emit e w = (Returned tt, add_events w [e]).
Proof. reflexivity. Qed.

Lemma ReadString_split input :
  ReadString "010" input = (fst (read_line input), snd (read_line input), rest_after input).
Proof.
  unfold read_line, rest_after.
  destruct (ReadString "010" input) as [[line ok] rest]. reflexivity.
Qed.

Lemma promptWithDefault_run question defaultValue w :
  promptWithDefault question defaultValue w =
  (Returned (text_answer defaultValue (fst (read_line (stdin w))) (snd (read_line (stdin w)))),
   mkWorld (rest_after (stdin w)) (fs w)
     (trace w ++ [Print (question ++ " [" ++ defaultValue ++ "]: ")])).
Proof.
  unfold promptWithDefault, bind, Printf, emit, reader_ReadString, text_answer. simpl.
  rewrite ReadString_split. simpl.
  destruct (snd (read_line (stdin w))); simpl; [| reflexivity].
  destruct (String.eqb (TrimSpace _) ""); reflexivity.
Qed.

Lemma promptBool_run_lines question defaultValue w :
  promptBool question defaultValue w =
  (Returned (bool_answer defaultValue (fst (read_line (stdin w))) (snd (read_line (stdin w)))),
   mkWorld (rest_after (stdin w)) (fs w)
     (trace w ++ [Print (question ++ " [" ++ (if defaultValue then "Y/n" else "y/N") ++ "]: ")])).
Proof.
  rewrite promptBool_run, ReadString_split. reflexivity.
Qed.

Lemma prompt_run question w :
  prompt question w =
  (Returned (if snd (read_line (stdin w)) then TrimSpace (fst (read_line (stdin w))) else ""),
   mkWorld (rest_after (stdin w)) (fs w) (trace w ++ [Print (question ++ ": ")])).
Proof.
  unfold prompt, bind, Printf, emit, reader_ReadString. simpl.
  rewrite ReadString_split. simpl.
  destruct (snd (read_line (stdin w))); reflexivity.
Qed.

Lemma getGitConfig_run env key fallback w :
  getGitConfig env key fallback w =
  (Returned (match exec_err (exec_run env ["git"; "config"; "--global"; key]) with
             | Some _ => fallback
             | None => TrimSpace (exec_output (exec_run env ["git"; "config"; "--global"; key]))
             end),
   add_events w [Exec ["git"; "config"; "--global"; key]]).
Proof.
  unfold getGitConfig, exec_Command_Run, bind, emit, ret. simpl.
  destruct (exec_err _); reflexivity.
Qed.

(** *** Steps that change nothing *)

Lemma no_mutation_refl w : no_mutation w w.
Proof. split; [reflexivity |]. exists []. rewrite app_nil_r. auto. Qed.

Lemma no_mutation_trans w1 w2 w3 :
  no_mutation w1 w2 -> no_mutation w2 w3 -> no_mutation w1 w3.
Proof.
  intros [Hf1 (e1 & Ht1 & Hq1)] [Hf2 (e2 & Ht2 & Hq2)]. split; [congruence |].
  exists (e1 ++ e2)%list. rewrite Ht2, Ht1, app_assoc, forallb_app, Hq1, Hq2. auto.
Qed.

Lemma no_mutation_add w events :
  forallb quiet_event events = true -> no_mutation w (add_events w events).
Proof. intros H. split; [reflexivity |]. exists events. auto. Qed.

Lemma quiet_ret {A} (a : A) : quiet (ret a).
Proof. intros w. apply no_mutation_refl. Qed.

Lemma quiet_exit {A} code : quiet (@os_Exit A code).
Proof. intros w. apply no_mutation_refl. Qed.

Lemma quiet_bind {A B} (m : M A) (k : A -> M B) :
  quiet m -> (forall a, quiet (k a)) -> quiet (bind m k).
Proof.
  intros Hm Hk w. unfold bind. specialize (Hm w).
  destruct (m w) as [[a | code] w1]; simpl in *; [| assumption].
  eapply no_mutation_trans; [exact Hm | apply Hk].
Qed.

Lemma quiet_emit e : quiet_event e = true -> quiet (emit e).
Proof. intros H w. apply no_mutation_add. simpl. rewrite H. reflexivity. Qed.

Lemma quiet_promptWithDefault q d : quiet (promptWithDefault q d).
Proof.
  intros w. rewrite promptWithDefault_run. split; [reflexivity |]. eexists. split; reflexivity.
Qed.

Lemma quiet_promptBool q d : quiet (promptBool q d).
Proof.
  intros w. rewrite promptBool_run_lines. split; [reflexivity |]. eexists. split; reflexivity.
Qed.

Lemma quiet_prompt q : quiet (prompt q).
Proof.
  intros w. rewrite prompt_run. split; [reflexivity |]. eexists. split; reflexivity.
Qed.

Lemma quiet_getGitConfig env key fallback : quiet (getGitConfig env key fallback).
Proof. intros w. rewrite getGitConfig_run. apply no_mutation_add. reflexivity. Qed.

Lemma quiet_gatherProjectInfo env : quiet (gatherProjectInfo env).
Proof.
  unfold gatherProjectInfo. destruct (os_Getwd env); [| apply quiet_ret].
  repeat first
    [ apply quiet_ret
    | apply quiet_exit
    | apply quiet_promptWithDefault
    | apply quiet_promptBool
    | apply quiet_prompt
    | apply quiet_getGitConfig
    | apply quiet_emit; reflexivity
    | apply quiet_bind; [| intros ?]
    | match goal with |- quiet (if ?c then _ else _) => destruct c end ].
Qed.

(** *** What the gathering returns *)

Lemma gather_invalid_name env cwd w :
  os_Getwd env = inl cwd ->
  isValidProjectName (name_answer cwd (stdin w)) = false ->
  exists w1,
    gatherProjectInfo env w
    = (Returned (Failed "invalid project name: must contain only letters, numbers, and hyphens"),
       w1).
Proof.
  intros Hcwd Hname. unfold gatherProjectInfo. rewrite Hcwd.
  erewrite bind_run by apply promptWithDefault_run.
  change (text_answer _ _ _) with (name_answer cwd (stdin w)).
  rewrite Hname. cbn [negb]. eexists; reflexivity.
Qed.

Lemma gather_invalid_path env cwd w :
  os_Getwd env = inl cwd ->
  isValidProjectName (name_answer cwd (stdin w)) = true ->
  isValidModulePath (path_answer cwd (stdin w)) = false ->
  exists w1,
    gatherProjectInfo env w = (Returned (Failed "invalid module path format"), w1).
Proof.
  intros Hcwd Hname Hpath. unfold gatherProjectInfo. rewrite Hcwd.
  erewrite bind_run by apply promptWithDefault_run.
  change (text_answer _ _ _) with (name_answer cwd (stdin w)).
  rewrite Hname. cbn [negb stdin fs trace].
  erewrite bind_run by apply promptWithDefault_run.
  change (text_answer _ _ _) with (path_answer cwd (stdin w)).
  rewrite Hpath. cbn [negb]. eexists; reflexivity.
Qed.

Ltac gather_step lemma :=
  erewrite bind_run by apply lemma; cbn [stdin fs trace add_events].

Lemma gather_confirmation env cwd w :
  os_Getwd env = inl cwd ->
  isValidProjectName (name_answer cwd (stdin w)) = true ->
  isValidModulePath (path_answer cwd (stdin w)) = true ->
  exists config w1,
    ProjectName config = name_answer cwd (stdin w)
    /\ ModulePath config = path_answer cwd (stdin w)
    /\ gatherProjectInfo env w
       = (if confirmation (stdin w) then Returned (Config config) else Exited 0, w1).
Proof.
  intros Hcwd Hname Hpath. unfold gatherProjectInfo. rewrite Hcwd.
  erewrite bind_run by apply promptWithDefault_run.
  change (text_answer _ _ _) with (name_answer cwd (stdin w)).
  rewrite Hname. cbn [negb stdin fs trace].
  erewrite bind_run by apply promptWithDefault_run.
  change (text_answer _ _ _) with (path_answer cwd (stdin w)).
  rewrite Hpath. cbn [negb stdin fs trace].
  gather_step promptWithDefault_run.
  gather_step getGitConfig_run.
  gather_step getGitConfig_run.
  gather_step promptWithDefault_run.
  gather_step promptWithDefault_run.
  gather_step promptWithDefault_run.
  gather_step emit_run.
  do 5 gather_step promptBool_run_lines.
  gather_step prompt_run.
  do 7 gather_step emit_run.
  gather_step promptBool_run_lines.
  unfold confirmation, nth_line. cbn [Nat.iter nat_rect].
  match goal with |- context [if negb ?b then _ else _] => destruct b end; cbn [negb].
  - eexists. eexists. split; [| split]; [| | reflexivity]; reflexivity.
  - erewrite bind_run by apply emit_run.
    eexists (mkProjectConfig _ _ "" "" "" "" false false false false false ""). eexists.
    split; [| split]; [| | reflexivity]; reflexivity.
Qed.

End GatherFacts.

(** ** The whole run, up to the confirmation *)
Section MainFacts.
Import GoStrings GoLib Runtime Script Validation SpecWords.

Lemma main_after_banner env w :
  main env w =
  bind (gatherProjectInfo env) (fun g =>
    match g with
    | Failed e => log_Fatalf ("Failed to gather project info: " ++ e)
    | Config config =>
        bind (initializeProject env config) (fun err =>
          match err with
          | Some e => log_Fatalf ("Failed to initialize project: " ++ e)
          | None =>
              bind (Println (newline ++ "✅ Project initialized successfully!")) (fun _ =>
              bind (Println (newline ++ "Next steps:")) (fun _ =>
              bind (Println "  1. Review the generated files") (fun _ =>
              bind (Println "  2. Run 'make setup' to install development tools") (fun _ =>
              bind (Println "  3. Run 'make check' to verify everything works") (fun _ =>
              if EnableDocs config then
                bind (Println "  4. Update documentation in docs/ to match your project")
                     (fun _ => Println "  5. Start coding!")
              else Println "  4. Start coding!")))))
          end)
    end)
    (mkWorld (stdin w) (fs w) (trace w ++ banner)).
Proof.
  unfold main.
  do 3 (erewrite bind_run by apply emit_run).
  unfold add_events, banner. cbn [stdin fs trace].
  rewrite <- !app_assoc. reflexivity.
Qed.

Lemma log_Fatalf_run {A} text w :
  @log_Fatalf A text w = (Exited 1, add_events w [LogFatal text]).
Proof. reflexivity. Qed.

Lemma main_gather_failed env w e w1 :
  gatherProjectInfo env (mkWorld (stdin w) (fs w) (trace w ++ banner))
  = (Returned (Failed e), w1) ->
  main env w = (Exited 1, add_events w1 [LogFatal ("Failed to gather project info: " ++ e)])
  /\ no_mutation w (add_events w1 [LogFatal ("Failed to gather project info: " ++ e)]).
Proof.
  intros Hg. rewrite main_after_banner. erewrite bind_run by exact Hg.
  split; [reflexivity |].
  pose proof (quiet_gatherProjectInfo env (mkWorld (stdin w) (fs w) (trace w ++ banner))) as Hq.
  rewrite Hg in Hq. simpl in Hq.
  eapply no_mutation_trans; [| eapply no_mutation_trans; [exact Hq |]].
  - apply (no_mutation_add w banner). reflexivity.
  - apply no_mutation_add. reflexivity.
Qed.

Lemma main_gather_exited env w code w1 :
  gatherProjectInfo env (mkWorld (stdin w) (fs w) (trace w ++ banner)) = (Exited code, w1) ->
  main env w = (Exited code, w1) /\ no_mutation w w1.
Proof.
  intros Hg. rewrite main_after_banner. erewrite bind_exit by exact Hg.
  split; [reflexivity |].
  pose proof (quiet_gatherProjectInfo env (mkWorld (stdin w) (fs w) (trace w ++ banner))) as Hq.
  rewrite Hg in Hq. simpl in Hq.
  eapply no_mutation_trans; [| exact Hq].
  apply (no_mutation_add w banner). reflexivity.
Qed.

End MainFacts.


(** ** Running the script: the mutation phase *)
Section ProjectFacts.
Import GoStrings GoLib Runtime Script Validation SpecWords.

Lemma later_refl w : later w w.
Proof. exists []. rewrite app_nil_r. reflexivity. Qed.

Lemma later_trans w1 w2 w3 : later w1 w2 -> later w2 w3 -> later w1 w3.
Proof.
  intros [e1 H1] [e2 H2]. exists (e1 ++ e2)%list. rewrite H2, H1, app_assoc. reflexivity.
Qed.

Lemma later_add w events : later w (add_events w events).
Proof. exists events. reflexivity. Qed.

Lemma returns_ret {A} (P : A -> Prop) a : P a -> returns_with P (ret a).
Proof. intros HP w. exists a, w. auto using later_refl. Qed.

Lemma returns_bind {A B} (P : B -> Prop) (m : M A) (k : A -> M B) :
  returns m -> (forall a, returns_with P (k a)) -> returns_with P (bind m k).
Proof.
  intros Hm Hk w. destruct (Hm w) as (a & w1 & E1 & _ & L1).
  destruct (Hk a w1) as (b & w2 & E2 & Pb & L2).
  exists b, w2. rewrite (bind_run _ _ _ _ _ E1). eauto using later_trans.
Qed.

Lemma returns_weaken {A} (P : A -> Prop) (m : M A) : returns_with P m -> returns m.
Proof. intros H w. destruct (H w) as (a & w' & E & _ & L). exists a, w'. auto. Qed.

Lemma returns_emit e : returns (emit e).
Proof. intros w. exists tt, (add_events w [e]). auto using later_add. Qed.

Lemma returns_get_fs : returns get_fs.
Proof. intros w. exists (fs w), w. auto using later_refl. Qed.

Lemma returns_put_fs t : returns (put_fs t).
Proof.
  intros w. eexists tt, _. split; [reflexivity |]. split; [exact I |].
  exists []. simpl. rewrite app_nil_r. reflexivity.
Qed.

Lemma returns_check (P : error -> Prop) step wrap next :
  returns step -> (forall e, P (Some (wrap e))) -> returns_with P next ->
  returns_with P (check step wrap next).
Proof.
  intros Hs Hw Hn. unfold check. apply returns_bind; [assumption |].
  intros [e |]; [apply returns_ret, Hw | assumption].
Qed.

(** The structure of a step built from the primitives. *)
Ltac returns_structure :=
  repeat first
    [ apply returns_emit
    | apply returns_get_fs
    | apply returns_put_fs
    | apply returns_ret; exact I
    | apply returns_check; [| intros ?; exact I |]
    | apply returns_bind; [| intros ?]
    | match goal with
      | |- returns_with _ (match ?x with _ => _ end) => destruct x
      | |- returns_with _ (let '(_, _) := ?x in _) => destruct x
      end ].

Lemma returns_os_WriteFile path data perm : returns (os_WriteFile path data perm).
Proof. unfold returns, os_WriteFile. returns_structure. Qed.

Lemma returns_os_Remove path : returns (os_Remove path).
Proof. unfold returns, os_Remove. returns_structure. Qed.

Lemma returns_os_RemoveAll path : returns (os_RemoveAll path).
Proof. unfold returns, os_RemoveAll. returns_structure. Qed.

Lemma returns_os_Stat path : returns (os_Stat path).
Proof. unfold returns, os_Stat. returns_structure. Qed.

Lemma returns_exec env argv : returns (exec_Command_Run env argv).
Proof. unfold returns, exec_Command_Run. returns_structure. Qed.

Lemma returns_updateGoMod config : returns (updateGoMod config).
Proof. apply returns_os_WriteFile. Qed.

Lemma returns_updateImportPaths config : returns (updateImportPaths config).
Proof.
  intros w. rewrite updateImportPaths_run. eexists _, _.
  split; [reflexivity |]. split; [exact I |]. eexists. reflexivity.
Qed.

Lemma returns_removeUnwantedComponents config : returns (removeUnwantedComponents config).
Proof.
  intros w. rewrite removeUnwantedComponents_run. eexists _, _.
  split; [reflexivity |]. split; [exact I |]. eexists. reflexivity.
Qed.

Lemma returns_removeFileIfExists path : returns (removeFileIfExists path).
Proof.
  unfold returns, removeFileIfExists, Printf.
  apply returns_bind; [apply returns_os_Stat |]. intros [n |].
  - apply returns_bind; [apply returns_emit | intros _; apply returns_os_Remove].
  - apply returns_ret. exact I.
Qed.

Lemma returns_removeEmptyDirectory path : returns (removeEmptyDirectory path).
Proof.
  unfold returns, removeEmptyDirectory.
  apply returns_bind; [apply returns_os_Stat |]. intros [n |].
  - apply returns_os_Remove.
  - apply returns_ret. exact I.
Qed.

Lemma returns_updateDocumentationFile path f config :
  returns (updateDocumentationFile path f config).
Proof.
  unfold returns, updateDocumentationFile.
  apply returns_bind; [apply returns_os_Stat |]. intros [n |].
  - apply returns_os_WriteFile.
  - apply returns_ret. exact I.
Qed.

Lemma returns_cleanupDocumentationReferences env config :
  returns (cleanupDocumentationReferences env config).
Proof.
  unfold returns, cleanupDocumentationReferences.
  destruct (index_first env);
    repeat (apply returns_check;
            [apply returns_updateDocumentationFile | intros ?; exact I |]);
    apply returns_ret; exact I.
Qed.

Lemma returns_if {A} (c : bool) (a b : M A) : returns a -> returns b ->
  returns (if c then a else b).
Proof. destruct c; auto. Qed.

Lemma returns_cleanupTemplateArtifacts env config :
  returns (cleanupTemplateArtifacts env config).
Proof.
  unfold returns, cleanupTemplateArtifacts, Println.
  apply returns_bind; [apply returns_emit | intros _].
  apply returns_check; [apply returns_removeFileIfExists | intros ?; exact I |].
  apply returns_check; [| intros ?; exact I |].
  - apply returns_if; [| apply returns_ret; exact I].
    repeat (apply returns_check;
            [ apply returns_if;
              [apply returns_removeFileIfExists | apply returns_ret; exact I]
            | intros ?; exact I |]).
    apply returns_ret. exact I.
  - apply returns_check; [| intros ?; exact I |].
    + apply returns_if;
        [apply returns_cleanupDocumentationReferences | apply returns_ret; exact I].
    + apply returns_bind; [apply returns_emit | intros _; apply returns_ret; exact I].
Qed.

Lemma returns_generateReadme env config : returns (generateReadme env config).
Proof. unfold returns, generateReadme. returns_structure. Qed.

(** *** The version-control step *)

(** A command whose failure is only printed. *)
Lemma best_effort_step {B} env argv (msg : string -> string) (k : unit -> M B) w :
  bind (exec_Command_Run env argv) (fun r =>
    bind (match exec_err r with
          | Some e => Printf (msg e)
          | None => ret tt
          end) k) w
  = k tt (add_events w (Exec argv ::
                        match exec_err (exec_run env argv) with
                        | Some e => [Print (msg e)]
                        | None => []
                        end)).
Proof.
  unfold Printf, exec_Command_Run, bind, emit, ret, add_events. cbn [stdin fs trace].
  destruct (exec_err (exec_run env argv)); cbn [stdin fs trace];
    rewrite <- ?app_assoc; reflexivity.
Qed.

Lemma exec_step {B} env argv (k : ExecResult -> M B) w :
  bind (exec_Command_Run env argv) k w = k (exec_run env argv) (add_events w [Exec argv]).
Proof. reflexivity. Qed.

Lemma initializeGit_run env config w :
  exists w',
    initializeGit env config w = (Returned (git_report env config), w')
    /\ fs w' = fs w /\ later w w'
    /\ (exec_err (exec_run env ["git"; "init"]) = None ->
        (forall e,
            exec_err (exec_run env ["git"; "config"; "user.name"; Author config]) = Some e ->
            In (Print ("⚠️  Failed to set git user.name: " ++ e ++ newline)) (trace w'))
        /\ (forall e,
               exec_err (exec_run env ["git"; "config"; "user.email"; Email config])
               = Some e ->
               In (Print ("⚠️  Failed to set git user.email: " ++ e ++ newline)) (trace w'))
        /\ (forall e,
               String.eqb (GitRemote config) "" = false ->
               exec_err (exec_run env ["git"; "remote"; "add"; "origin"; GitRemote config])
               = Some e ->
               In (Print ("⚠️  Failed to add git remote: " ++ e ++ newline)) (trace w'))).
Proof.
  unfold git_report, initializeGit. cbv zeta. rewrite exec_step.
  destruct (exec_err (exec_run env ["git"; "init"])) as [e0 |].
  { eexists. split; [reflexivity |]. split; [reflexivity |].
    split; [apply later_add | discriminate]. }
  rewrite (best_effort_step env _
             (fun e => "⚠️  Failed to set git user.name: " ++ e ++ newline)).
  rewrite (best_effort_step env _
             (fun e => "⚠️  Failed to set git user.email: " ++ e ++ newline)).
  set (w2 := add_events (add_events _ _) _).
  assert (Hw2 : fs w2 = fs w /\ later w w2
                /\ (forall e,
                       exec_err (exec_run env ["git"; "config"; "user.name"; Author config])
                       = Some e ->
                       In (Print ("⚠️  Failed to set git user.name: " ++ e ++ newline))
                          (trace w2))
                /\ (forall e,
                       exec_err (exec_run env ["git"; "config"; "user.email"; Email config])
                       = Some e ->
                       In (Print ("⚠️  Failed to set git user.email: " ++ e ++ newline))
                          (trace w2))).
  { subst w2. split; [reflexivity |]. split.
    - eapply later_trans; [apply later_add |]. eapply later_trans; apply later_add.
    - unfold add_events. cbn [trace]. split; intros e He; rewrite He;
        rewrite !in_app_iff; cbn [In]; tauto. }
  clearbody w2. destruct Hw2 as (F2 & L2 & N2 & E2).
  set (step3 := bind _ _).
  assert (H3 : exists w3,
             fs w3 = fs w2 /\ later w2 w3
             /\ (forall e,
                    String.eqb (GitRemote config) "" = false ->
                    exec_err
                      (exec_run env ["git"; "remote"; "add"; "origin"; GitRemote config])
                    = Some e ->
                    In (Print ("⚠️  Failed to add git remote: " ++ e ++ newline)) (trace w3))
             /\ forall B (k : unit -> M B), bind
                  (if negb (String.eqb (GitRemote config) "") then
                     bind (exec_Command_Run env
                             ["git"; "remote"; "add"; "origin"; GitRemote config])
                       (fun r => match exec_err r with
                                 | Some e =>
                                     Printf ("⚠️  Failed to add git remote: " ++ e ++ newline)
                                 | None => ret tt
                                 end)
                   else ret tt) k w2 = k tt w3).
  { destruct (String.eqb (GitRemote config) ""); cbn [negb].
    - exists w2. split; [reflexivity |]. split; [apply later_refl |].
      split; [discriminate | reflexivity].
    - destruct (exec_err (exec_run env ["git"; "remote"; "add"; "origin"; GitRemote config]))
        as [e3 |] eqn:E3.
      + eexists. split; [| split; [| split]];
          [ | | | intros B k; cbv beta iota zeta delta [Printf bind exec_Command_Run emit ret];
                  cbn [stdin fs trace]; rewrite E3; reflexivity ].
        * reflexivity.
        * cbn [trace]. eexists. rewrite <- app_assoc. reflexivity.
        * intros e _ [= <-]. cbn [trace]. rewrite !in_app_iff. cbn [In]. tauto.
      + eexists. split; [| split; [| split]];
          [ | | | intros B k; cbv beta iota zeta delta [Printf bind exec_Command_Run emit ret];
                  cbn [stdin fs trace]; rewrite E3; reflexivity ].
        * reflexivity.
        * cbn [trace]. eexists. reflexivity.
        * intros e _ [=]. }
  destruct H3 as (w3 & F3 & L3 & R3 & K3). subst step3.
  rewrite K3. clear K3. rewrite exec_step.
  assert (Hlater : forall w', later (add_events w3 [Exec ["git"; "add"; "."]]) w' ->
                              later w w').
  { intros w' L. eapply later_trans; [exact L2 |]. eapply later_trans; [exact L3 |].
    eapply later_trans; [apply later_add | exact L]. }
  assert (Hwarn : forall w',
             later (add_events w3 [Exec ["git"; "add"; "."]]) w' ->
             None = @None string ->
             (forall e,
                 exec_err (exec_run env ["git"; "config"; "user.name"; Author config])
                 = Some e ->
                 In (Print ("⚠️  Failed to set git user.name: " ++ e ++ newline)) (trace w'))
             /\ (forall e,
                    exec_err (exec_run env ["git"; "config"; "user.email"; Email config])
                    = Some e ->
                    In (Print ("⚠️  Failed to set git user.email: " ++ e ++ newline))
                       (trace w'))
             /\ (forall e,
                    String.eqb (GitRemote config) "" = false ->
                    exec_err
                      (exec_run env ["git"; "remote"; "add"; "origin"; GitRemote config])
                    = Some e ->
                    In (Print ("⚠️  Failed to add git remote: " ++ e ++ newline))
                       (trace w'))).
  { intros w' [ev Hev] _. destruct L3 as [ev3 Hev3].
    assert (Hin : forall x, In x (trace w2) -> In x (trace w3))
      by (intros x Hx; rewrite Hev3, in_app_iff; tauto).
    rewrite Hev. cbn [trace add_events].
    repeat split; intros e; intros; rewrite !in_app_iff;
      [ pose proof (fun H => Hin _ (N2 e H))
      | pose proof (fun H => Hin _ (E2 e H))
      | pose proof (R3 e) ]; tauto. }
  destruct (exec_err (exec_run env ["git"; "add"; "."])) as [ea |].
  { eexists. split; [reflexivity |]. split; [cbn [fs add_events]; congruence |].
    split; [apply Hlater, later_refl | apply Hwarn, later_refl]. }
  destruct (commit_select env) as [| started kill_err].
  - rewrite exec_step.
    match goal with
    | |- context [match exec_err ?r with _ => _ end] => destruct (exec_err r) as [ec |]
    end;
      (eexists; split; [reflexivity |]; split; [cbn [fs add_events]; congruence |];
       split; [apply Hlater, later_add | apply Hwarn, later_add]).
  - destruct started, kill_err as [ek |];
      cbv beta iota delta [bind emit ret Printf]; cbn [stdin fs trace add_events];
      (eexists; split; [reflexivity |]; split; [cbn [fs]; congruence |];
       split; [apply Hlater | apply Hwarn]; eexists; cbn [trace add_events];
       rewrite <- ?app_assoc; reflexivity).
Qed.

Lemma returns_initializeGit env config : returns (initializeGit env config).
Proof.
  intros w. destruct (initializeGit_run env config w) as (w' & E & _ & L & _).
  eexists _, _. eauto.
Qed.

Lemma returns_setupPreCommitHooks env : returns (setupPreCommitHooks env).
Proof.
  unfold returns, setupPreCommitHooks.
  apply returns_bind; [apply returns_exec | intros r].
  destruct (exec_err r); [apply returns_ret; exact I |].
  apply returns_bind; [apply returns_exec | intros ?; apply returns_ret; exact I].
Qed.

End ProjectFacts.

(** ** The end of the mutation phase *)
Section TailFacts.
Import GoStrings GoLib Runtime Script Validation SpecWords.

Lemma bind_inv {A B} (m : M A) (k : A -> M B) w b w' :
  bind m k w = (Returned b, w') ->
  exists a w1, m w = (Returned a, w1) /\ k a w1 = (Returned b, w').
Proof.
  unfold bind. destruct (m w) as [[a | code] w1]; intros H; [eauto | discriminate].
Qed.

Lemma check_inv step wrap next w w' :
  check step wrap next w = (Returned None, w') ->
  exists w1, step w = (Returned None, w1) /\ next w1 = (Returned None, w').
Proof.
  unfold check. intros H. apply bind_inv in H as ([e |] & w1 & Hs & Hn).
  - discriminate.
  - eauto.
Qed.

Lemma check_pass step wrap next w w1 :
  step w = (Returned None, w1) -> check step wrap next w = next w1.
Proof. intros E. unfold check. rewrite (bind_run _ _ _ _ _ E). reflexivity. Qed.

Lemma returned_later {A} (m : M A) w a w' :
  returns m -> m w = (Returned a, w') -> later w w'.
Proof.
  intros Hr E. destruct (Hr w) as (a' & w'' & E' & _ & L).
  rewrite E in E'. injection E' as <- <-. assumption.
Qed.

Lemma check_fst step wrap next1 next2 w :
  returns step ->
  (forall w1, fst (next1 w1) = fst (next2 w1)) ->
  fst (check step wrap next1 w) = fst (check step wrap next2 w).
Proof.
  intros Hs Hn. unfold check. destruct (Hs w) as (r & w1 & E & _ & _).
  rewrite !(bind_run _ _ _ _ _ E). destruct r; [reflexivity | apply Hn].
Qed.

Lemma returns_value {A} (P : A -> Prop) (m : M A) v w :
  returns_with P m -> (forall a, P a -> a = v) -> fst (m w) = Returned v.
Proof.
  intros Hr Hv. destruct (Hr w) as (a & w' & E & Pa & _).
  rewrite E. simpl. f_equal. auto.
Qed.

(** The outcome of [initializeProject] is the outcome of its required
    steps: what follows them always returns [nil]. *)
Lemma initializeProject_fst env config w :
  fst (initializeProject env config w) = fst (required_steps env config w).
Proof.
  unfold initializeProject, required_steps.
  apply check_fst; [apply returns_updateGoMod | intros w1].
  apply check_fst; [apply returns_updateImportPaths | intros w2].
  apply check_fst; [apply returns_removeUnwantedComponents | intros w3].
  apply check_fst; [apply returns_cleanupTemplateArtifacts | intros w4].
  apply check_fst; [apply returns_generateReadme | intros w5].
  apply (returns_value (fun r => r = None)); [| auto].
  unfold Println, Printf.
  apply returns_bind.
  { destruct (String.eqb _ _); [| apply returns_emit].
    apply returns_bind; [apply returns_initializeGit | intros [e |]].
    - apply returns_bind; [apply returns_emit | intros _; apply returns_emit].
    - apply returns_ret. exact I. }
  intros _. apply returns_bind; [apply returns_setupPreCommitHooks | intros hr].
  apply returns_bind.
  { destruct hr; [| apply returns_ret; exact I].
    apply returns_bind; [apply returns_emit | intros _; apply returns_emit]. }
  intros _. apply returns_bind; [apply returns_emit | intros _].
  apply returns_bind; [apply returns_os_Remove | intros r1].
  apply returns_bind.
  { destruct r1; [| apply returns_ret; exact I].
    apply returns_bind; [apply returns_emit | intros _; apply returns_emit]. }
  intros _. apply returns_bind; [apply returns_removeEmptyDirectory | intros r2].
  apply returns_bind.
  { destruct r2; [apply returns_emit | apply returns_ret; exact I]. }
  intros _. apply returns_ret. reflexivity.
Qed.

Lemma required_steps_failure env config w :
  exists r w',
    required_steps env config w = (Returned r, w')
    /\ match r with Some e => required_failure e | None => True end.
Proof.
  assert (H : returns_with
                (fun r => match r with Some e => required_failure e | None => True end)
                (required_steps env config)).
  { unfold required_steps.
    apply returns_check; [apply returns_updateGoMod | |].
    { intros e. eexists _, e. split; [reflexivity |]. simpl. tauto. }
    apply returns_check; [apply returns_updateImportPaths | |].
    { intros e. eexists _, e. split; [reflexivity |]. simpl. tauto. }
    apply returns_check; [apply returns_removeUnwantedComponents | |].
    { intros e. eexists _, e. split; [reflexivity |]. simpl. tauto. }
    apply returns_check; [apply returns_cleanupTemplateArtifacts | |].
    { intros e. eexists _, e. split; [reflexivity |]. simpl. tauto. }
    apply returns_check; [apply returns_generateReadme | |].
    { intros e. eexists _, e. split; [reflexivity |]. simpl. tauto. }
    apply returns_ret. exact I. }
  destruct (H w) as (r & w' & E & P & _). eauto.
Qed.

Lemma initializeProject_returns env config w :
  exists r w',
    initializeProject env config w = (Returned r, w')
    /\ match r with Some e => required_failure e | None => True end.
Proof.
  destruct (required_steps_failure env config w) as (r & w1 & E & P).
  pose proof (initializeProject_fst env config w) as F. rewrite E in F. simpl in F.
  destruct (initializeProject env config w) as [out w'] eqn:Ei. simpl in F. subst out.
  eauto.
Qed.

(** The removal of the script and of its directory, run from [w]. *)
Lemma self_removal_run w w' :
  bind (Println "🗑️  Removing initialization script...") (fun _ =>
  bind (os_Remove "scripts/init.go") (fun err =>
  bind (match err with
        | Some e =>
            bind (Printf ("⚠️  Failed to remove init script: " ++ e ++ newline))
                 (fun _ => Println "   You can remove it manually: rm scripts/init.go")
        | None => ret tt
        end) (fun _ =>
  bind (removeEmptyDirectory "scripts") (fun err =>
  bind (match err with
        | Some e => Printf ("ℹ️  Could not remove scripts directory: " ++ e ++ newline)
        | None => ret tt
        end) (fun _ => ret (@None string)))))) w = (Returned None, w') ->
  w' = self_removal w.
Proof.
  unfold self_removal.
  cbv beta iota zeta delta
    [bind Println Printf emit ret os_Remove get_fs put_fs removeEmptyDirectory os_Stat
     FS.Stat].
  cbn [stdin fs trace].
  destruct (FS.Remove (fs w) "scripts/init.go") as [t1 | e1]; cbv beta iota;
    cbn [stdin fs trace].
  - destruct (t1 !! "scripts") as [n |]; cbv beta iota; cbn [stdin fs trace].
    + destruct (FS.Remove t1 "scripts") as [t2 | e2]; cbv beta iota; cbn [stdin fs trace];
        intros H; injection H as <-; rewrite <- ?app_assoc; reflexivity.
    + intros H; injection H as <-; rewrite <- ?app_assoc; reflexivity.
  - destruct (fs w !! "scripts") as [n |]; cbv beta iota; cbn [stdin fs trace].
    + destruct (FS.Remove (fs w) "scripts") as [t2 | e2]; cbv beta iota;
        cbn [stdin fs trace];
        intros H; injection H as <-; rewrite <- ?app_assoc; reflexivity.
    + intros H; injection H as <-; rewrite <- ?app_assoc; reflexivity.
Qed.

(** A successful [initializeProject], step by step. *)
Lemma initializeProject_success env config w w' :
  initializeProject env config w = (Returned None, w') ->
  exists w5 w6 w7 hooks,
    required_steps env config w = (Returned None, w5)
    /\ later w w5
    /\ git_step env config w5 w6
    /\ setupPreCommitHooks env w6 = (Returned hooks, w7)
    /\ w' = self_removal (add_events w7 (hooks_warning hooks)).
Proof.
  unfold initializeProject, required_steps. intros H.
  apply check_inv in H as (w1 & E1 & H). rewrite (check_pass _ _ _ _ _ E1).
  apply check_inv in H as (w2 & E2 & H). rewrite (check_pass _ _ _ _ _ E2).
  apply check_inv in H as (w3 & E3 & H). rewrite (check_pass _ _ _ _ _ E3).
  apply check_inv in H as (w4 & E4 & H). rewrite (check_pass _ _ _ _ _ E4).
  apply check_inv in H as (w5 & E5 & H). rewrite (check_pass _ _ _ _ _ E5).
  apply bind_inv in H as ([] & w6 & Hgit & H).
  apply bind_inv in H as (hooks & w7 & Hhooks & H).
  apply bind_inv in H as ([] & w7' & Hwarn & H).
  apply self_removal_run in H.
  exists w5, w6, w7, hooks. split; [reflexivity |]. split; [| split; [| split]].
  - eapply later_trans; [eapply returned_later; [apply returns_updateGoMod | exact E1] |].
    eapply later_trans;
      [eapply returned_later; [apply returns_updateImportPaths | exact E2] |].
    eapply later_trans;
      [eapply returned_later; [apply returns_removeUnwantedComponents | exact E3] |].
    eapply later_trans;
      [eapply returned_later; [apply (returns_cleanupTemplateArtifacts env) | exact E4] |].
    eapply returned_later; [apply (returns_generateReadme env) | exact E5].
  - unfold git_step. destruct (String.eqb (os_Getenv env "SKIP_GIT_INIT") "").
    + destruct (initializeGit_run env config w5) as (wg & Eg & _ & _ & _).
      rewrite (bind_run _ _ _ _ _ Eg) in Hgit.
      exists wg. split; [assumption |].
      unfold git_warning. destruct (git_report env config);
        cbv beta iota delta [bind Printf Println emit ret] in Hgit;
        cbn [stdin fs trace] in Hgit; injection Hgit as <-; unfold add_events;
        cbn [stdin fs trace]; rewrite <- ?app_assoc, ?app_nil_r; try reflexivity.
      destruct wg; reflexivity.
    + cbv beta iota delta [bind Printf Println emit ret] in Hgit.
      injection Hgit as <-. reflexivity.
  - assumption.
  - subst w'. f_equal. unfold hooks_warning. destruct hooks;
      cbv beta iota delta [bind Printf Println emit ret] in Hwarn;
      cbn [stdin fs trace] in Hwarn; injection Hwarn as <-; unfold add_events;
      cbn [stdin fs trace]; rewrite <- ?app_assoc, ?app_nil_r; try reflexivity.
    destruct w7; reflexivity.
Qed.

End TailFacts.

(** ** The script removes itself *)
Section SelfRemovalFacts.
Import GoStrings GoLib Runtime Script Validation SpecWords.

Lemma has_children_true (t : gmap string FS.node) dir p n :
  t !! p = Some n -> FS.under dir p = true -> FS.has_children t dir = true.
Proof.
  intros Hp Hu. unfold FS.has_children. apply existsb_exists.
  exists (p, n). split; [| assumption].
  apply list_elem_of_In, elem_of_map_to_list. assumption.
Qed.

Lemma has_children_false (t : gmap string FS.node) dir :
  (forall p n, t !! p = Some n -> FS.under dir p = false) ->
  FS.has_children t dir = false.
Proof.
  intros H. unfold FS.has_children.
  destruct (existsb _ _) eqn:E; [| reflexivity].
  apply existsb_exists in E as ([p n] & Hin & Hu).
  apply list_elem_of_In, elem_of_map_to_list in Hin. cbn [fst] in Hu.
  rewrite (H p n Hin) in Hu. discriminate.
Qed.

Lemma self_removal_trace w :
  exists after,
    trace (self_removal w)
    = (trace w
       ++ [Print ("🗑️  Removing initialization script..." ++ newline);
           OsRemove "scripts/init.go"]
       ++ after)%list.
Proof. unfold self_removal. cbn [trace]. eexists. reflexivity. Qed.

Lemma second_removal_keeps_none (t1 : gmap string FS.node) :
  t1 !! "scripts/init.go" = None ->
  match match t1 !! "scripts" with
        | Some _ => Some (FS.Remove t1 "scripts")
        | None => None
        end with
  | Some (inl t) => t
  | _ => t1
  end !! "scripts/init.go" = None.
Proof.
  intros H. destruct (t1 !! "scripts") as [n |] eqn:E; [| assumption].
  unfold FS.Remove. rewrite E. destruct n as [m c |].
  - rewrite lookup_delete_ne by discriminate. assumption.
  - destruct (FS.has_children t1 "scripts"); [assumption |].
    rewrite lookup_delete_ne by discriminate. assumption.
Qed.

Lemma self_removal_script_gone w mode content :
  fs w !! "scripts/init.go" = Some (FS.File mode content) ->
  fs (self_removal w) !! "scripts/init.go" = None.
Proof.
  intros H. unfold self_removal. cbn [fs].
  apply second_removal_keeps_none.
  unfold FS.Remove. rewrite H. apply lookup_delete_eq.
Qed.

(** After the first removal nothing of [scripts/init.go] is left when
    nothing else was below [scripts]. *)
Lemma first_removal_empties w :
  (forall p n, fs w !! p = Some n -> FS.under "scripts" p = true -> p = "scripts/init.go") ->
  forall p n,
    match FS.Remove (fs w) "scripts/init.go" with inl t => t | inr _ => fs w end !! p
    = Some n ->
    FS.under "scripts" p = false.
Proof.
  intros Honly p n. unfold FS.Remove.
  destruct (fs w !! "scripts/init.go") as [[m c |] |] eqn:E.
  - intros Hp. destruct (FS.under "scripts" p) eqn:Hu; [| reflexivity].
    destruct (String.eqb_spec p "scripts/init.go") as [-> | Hne].
    + rewrite lookup_delete_eq in Hp. discriminate.
    + rewrite lookup_delete_ne in Hp by congruence.
      exfalso. apply Hne. eapply Honly; eassumption.
  - destruct (FS.has_children (fs w) "scripts/init.go") eqn:Hc.
    + intros Hp. destruct (FS.under "scripts" p) eqn:Hu; [| reflexivity].
      assert (p = "scripts/init.go") by (eapply Honly; eassumption). subst p.
      exfalso.
      unfold FS.has_children in Hc. apply existsb_exists in Hc as ([q nq] & Hin & Hq).
      apply list_elem_of_In, elem_of_map_to_list in Hin. cbn [fst] in Hq.
      assert (Hsub : FS.under "scripts" q = true).
      { unfold FS.under in *. apply HasPrefix_split in Hq as [x ->]. reflexivity. }
      pose proof (Honly q nq Hin Hsub) as ->. discriminate Hq.
    + intros Hp. destruct (FS.under "scripts" p) eqn:Hu; [| reflexivity].
      destruct (String.eqb_spec p "scripts/init.go") as [-> | Hne].
      * rewrite lookup_delete_eq in Hp. discriminate.
      * rewrite lookup_delete_ne in Hp by congruence.
        exfalso. apply Hne. eapply Honly; eassumption.
  - intros Hp. destruct (FS.under "scripts" p) eqn:Hu; [| reflexivity].
    assert (p = "scripts/init.go") by (eapply Honly; eassumption). subst p. congruence.
Qed.

Lemma self_removal_directory_gone w :
  (forall p n, fs w !! p = Some n -> FS.under "scripts" p = true -> p = "scripts/init.go") ->
  fs (self_removal w) !! "scripts" = None.
Proof.
  intros Honly. pose proof (first_removal_empties w Honly) as Hempty.
  unfold self_removal. cbn [fs].
  set (t1 := match FS.Remove (fs w) "scripts/init.go" with inl t => t | inr _ => fs w end)
    in *.
  destruct (t1 !! "scripts") as [n |] eqn:E; [| assumption].
  unfold FS.Remove. rewrite E.
  destruct n as [m c |].
  - apply lookup_delete_eq.
  - rewrite has_children_false by assumption. apply lookup_delete_eq.
Qed.

Lemma self_removal_directory_kept w p n :
  fs w !! "scripts" = Some FS.Dir ->
  fs w !! p = Some n -> FS.under "scripts" p = true -> p <> "scripts/init.go" ->
  fs (self_removal w) !! "scripts" = Some FS.Dir
  /\ In (Print ("ℹ️  Could not remove scripts directory: "
                ++ "remove scripts: directory not empty" ++ newline))
        (trace (self_removal w)).
Proof.
  intros Hdir Hp Hu Hne. unfold self_removal. cbn [fs trace].
  set (t1 := match FS.Remove (fs w) "scripts/init.go" with inl t => t | inr _ => fs w end).
  assert (H1 : t1 !! "scripts" = Some FS.Dir /\ t1 !! p = Some n).
  { subst t1. unfold FS.Remove.
    destruct (fs w !! "scripts/init.go") as [[m c |] |]; [| | auto].
    - rewrite !lookup_delete_ne by (discriminate || congruence). auto.
    - destruct (FS.has_children _ _); [auto |].
      rewrite !lookup_delete_ne by (discriminate || congruence). auto. }
  destruct H1 as [Hd1 Hp1]. rewrite Hd1. unfold FS.Remove. rewrite Hd1.
  rewrite (has_children_true t1 "scripts" p n Hp1 Hu).
  split; [assumption |].
  rewrite !in_app_iff. right. right. right. right. left. reflexivity.
Qed.

Lemma self_removal_failure_logged w e :
  FS.Remove (fs w) "scripts/init.go" = inr e ->
  In (Print ("⚠️  Failed to remove init script: " ++ e ++ newline)) (trace (self_removal w)).
Proof.
  intros H. unfold self_removal. cbn [trace]. rewrite H.
  rewrite !in_app_iff. right. right. left. left. reflexivity.
Qed.

Lemma git_step_later env config w5 w6 : git_step env config w5 w6 -> later w5 w6.
Proof.
  unfold git_step. destruct (String.eqb _ _).
  - intros (wg & Eg & ->).
    destruct (initializeGit_run env config w5) as (wg' & Eg' & _ & L & _).
    rewrite Eg in Eg'. injection Eg' as <-.
    eapply later_trans; [exact L | apply later_add].
  - intros ->. apply later_add.
Qed.

End SelfRemovalFacts.

(** C8.  Nothing the version-control bootstrapper or the hook installer
    reports can make initialization fail: [initializeProject] ends
    exactly as its five required steps end, whatever the external
    commands return, however the commit races its timer and whatever
    the environment variables are.  When it succeeds, the caller has
    printed the warning of a failed bootstrapper and gone on to the hook
    installer, and printed the warning of a failed installer and gone
    on to the final clean-up.  Inside the bootstrapper a failed
    [git init] and a failed [git add] are returned to the caller; with
    both succeeding the result is that of the commit alone, so a failed
    [git config] or [git remote add] is printed and never returned. *)
Theorem bootstrap_and_hook_errors_are_not_fatal :
  forall env config w,
    let run := Script.exec_run env in
    let init := run ["git"; "init"] in
    let add := run ["git"; "add"; "."] in
    fst (Script.initializeProject env config w) = fst (SpecWords.required_steps env config w)
    /\ (forall getenv run' sel,
           fst (Script.initializeProject (SpecWords.with_externals env getenv run' sel) config w)
           = fst (Script.initializeProject env config w))
    /\ (forall w',
           Script.initializeProject env config w = (Runtime.Returned None, w') ->
           exists w5 w6 w7 hooks,
             SpecWords.git_step env config w5 w6
             /\ Script.setupPreCommitHooks env w6 = (Runtime.Returned hooks, w7)
             /\ w' = SpecWords.self_removal
                       (SpecWords.add_events w7 (SpecWords.hooks_warning hooks)))
    /\ exists wg,
        Script.initializeGit env config w
        = (Runtime.Returned (SpecWords.git_report env config), wg)
        /\ (forall e,
               Runtime.exec_err init = Some e ->
               SpecWords.git_report env config
               = Some ("failed to initialize git: " ++ e
                       ++ " (output: " ++ Runtime.exec_output init ++ ")"))
        /\ (forall e,
               Runtime.exec_err init = None -> Runtime.exec_err add = Some e ->
               SpecWords.git_report env config
               = Some ("failed to stage files: " ++ e
                       ++ " (output: " ++ Runtime.exec_output add ++ ")"))
        /\ (Runtime.exec_err init = None ->
            (forall e,
                Runtime.exec_err (run ["git"; "config"; "user.name"; Script.Author config])
                = Some e ->
                In (Runtime.Print ("⚠️  Failed to set git user.name: " ++ e ++ GoLib.newline))
                   (Runtime.trace wg))
            /\ (forall e,
                   Runtime.exec_err (run ["git"; "config"; "user.email"; Script.Email config])
                   = Some e ->
                   In (Runtime.Print
                         ("⚠️  Failed to set git user.email: " ++ e ++ GoLib.newline))
                      (Runtime.trace wg))
            /\ (forall e,
                   String.eqb (Script.GitRemote config) "" = false ->
                   Runtime.exec_err
                     (run ["git"; "remote"; "add"; "origin"; Script.GitRemote config])
                   = Some e ->
                   In (Runtime.Print ("⚠️  Failed to add git remote: " ++ e ++ GoLib.newline))
                      (Runtime.trace wg))).
Proof.
  intros env config w run init add. split; [apply initializeProject_fst |].
  split; [| split].
  - intros getenv run' sel. rewrite !initializeProject_fst. reflexivity.
  - intros w' H.
    destruct (initializeProject_success env config w w' H)
      as (w5 & w6 & w7 & hooks & _ & _ & Hgit & Hhooks & Hw').
    exists w5, w6, w7, hooks. auto.
  - destruct (initializeGit_run env config w) as (wg & Eg & _ & _ & Hwarn).
    exists wg. split; [exact Eg |]. split; [| split; [| exact Hwarn]].
    + intros e He. unfold SpecWords.git_report. fold run. fold init. rewrite He. reflexivity.
    + intros e Hi Ha. unfold SpecWords.git_report. fold run. fold init. fold add.
      rewrite Hi, Ha. reflexivity.
Qed.

(** C10.  Once the five required steps have succeeded, initialization
    succeeds, and on the way it has tried to remove [scripts/init.go]
    and then the [scripts] directory, whatever the configuration: the
    removal of the script is attempted right after its announcement,
    the script is gone when it was a file, the directory is gone when
    nothing else was below it, and stays, with a note printed, when
    something else is; a failed removal of the script is printed.  None
    of these failures changes the result. *)
Theorem script_removes_itself_after_required_steps :
  forall env config w w5,
    SpecWords.required_steps env config w = (Runtime.Returned None, w5) ->
    exists w7 w',
      Script.initializeProject env config w = (Runtime.Returned None, w')
      /\ SpecWords.later w5 w7
      /\ w' = SpecWords.self_removal w7
      /\ (exists after,
             Runtime.trace w'
             = (Runtime.trace w7
                ++ [Runtime.Print ("🗑️  Removing initialization script..." ++ GoLib.newline);
                    Runtime.OsRemove "scripts/init.go"]
                ++ after)%list)
      /\ (forall mode content,
             Runtime.fs w7 !! "scripts/init.go" = Some (FS.File mode content) ->
             Runtime.fs w' !! "scripts/init.go" = None)
      /\ ((forall p n, Runtime.fs w7 !! p = Some n -> FS.under "scripts" p = true ->
                       p = "scripts/init.go") ->
          Runtime.fs w' !! "scripts" = None)
      /\ (forall p n,
             Runtime.fs w7 !! "scripts" = Some FS.Dir ->
             Runtime.fs w7 !! p = Some n -> FS.under "scripts" p = true ->
             p <> "scripts/init.go" ->
             Runtime.fs w' !! "scripts" = Some FS.Dir
             /\ In (Runtime.Print ("ℹ️  Could not remove scripts directory: "
                                   ++ "remove scripts: directory not empty" ++ GoLib.newline))
                   (Runtime.trace w'))
      /\ (forall e,
             FS.Remove (Runtime.fs w7) "scripts/init.go" = inr e ->
             In (Runtime.Print ("⚠️  Failed to remove init script: " ++ e ++ GoLib.newline))
                (Runtime.trace w')).
Proof.
  intros env config w w5 Hreq.
  pose proof (initializeProject_fst env config w) as F. rewrite Hreq in F. simpl in F.
  destruct (Script.initializeProject env config w) as [out w'] eqn:Ei. simpl in F. subst out.
  destruct (initializeProject_success env config w w' Ei)
    as (w5' & w6 & w7 & hooks & Hreq' & _ & Hgit & Hhooks & Hw').
  rewrite Hreq in Hreq'. injection Hreq' as <-.
  exists (SpecWords.add_events w7 (SpecWords.hooks_warning hooks)), w'.
  split; [reflexivity |]. split; [| split; [exact Hw' |]].
  - eapply later_trans; [apply (git_step_later _ _ _ _ Hgit) |].
    eapply later_trans; [| apply later_add].
    eapply returned_later; [apply returns_setupPreCommitHooks | exact Hhooks].
  - subst w'. split; [apply self_removal_trace |].
    split; [apply self_removal_script_gone |].
    split; [apply self_removal_directory_gone |].
    split; [intros p n; apply self_removal_directory_kept |].
    apply self_removal_failure_logged.
Qed.

(** The sample clone: the required steps succeed there, so the run
    ends with the script removing itself. *)
Lemma script_removes_itself_on_sample :
  exists w7 w',
    Script.initializeProject Sample.sample_env Sample.sample_config Sample.sample_world
    = (Runtime.Returned None, w')
    /\ SpecWords.later
         (snd (SpecWords.required_steps Sample.sample_env Sample.sample_config
                 Sample.sample_world)) w7
    /\ w' = SpecWords.self_removal w7.
Proof.
  destruct (script_removes_itself_after_required_steps
              Sample.sample_env Sample.sample_config Sample.sample_world
              (snd (SpecWords.required_steps Sample.sample_env Sample.sample_config
                      Sample.sample_world)))
    as (w7 & w' & Hrun & Hlater & Hw' & _).
  - vm_compute. reflexivity.
  - exists w7, w'. split; [exact Hrun |]. split; [exact Hlater | exact Hw'].
Defined.

(** * Further properties of the script *)

(** ** Trimmed answers *)
Section TrimFacts.
Import GoStrings GoLib Runtime Script SpecWords Shapes.








End TrimFacts.



(** ** The default module path *)
Section DefaultPathFacts.
Import GoStrings GoRegexp Validation.
Local Arguments String.append !s1 s2 : simpl nomatch.

Lemma list_ascii_of_append (a b : string) :
  list_ascii_of_string (a ++ b) = (list_ascii_of_string a ++ list_ascii_of_string b)%list.
Proof. induction a as [| c a IH]; simpl; [reflexivity |]. rewrite IH. reflexivity. Qed.

End DefaultPathFacts.

(** X3.  The default that the module-path prompt offers,
    "github.com/your-org/" followed by the project name, passes the
    module-path validation whenever the project name passed its own. *)
Theorem default_module_path_is_valid :
  forall name,
    Validation.isValidProjectName name = true ->
    Validation.isValidModulePath ("github.com/your-org/" ++ name) = true.
Proof.
  intros name Hname. rewrite isValidProjectName_shape in Hname.
  rewrite isValidModulePath_shape. unfold Validation.path_shape, Validation.name_shape in *.
  remember (list_ascii_of_string "github.com") as host eqn:Hhost.
  remember (list_ascii_of_string "your-org") as org eqn:Horg.
  assert (E : list_ascii_of_string ("github.com/your-org/" ++ name)
              = (host ++ "/"%char :: org ++ "/"%char :: list_ascii_of_string name)%list).
  { rewrite list_ascii_of_append. subst host org. reflexivity. }
  rewrite E.
  rewrite split_on_app by (subst host; reflexivity).
  rewrite split_on_app by (subst org; reflexivity).
  rewrite split_on_single
    by (eapply bounded_word_no_slash; [apply name_byte_not_slash | exact Hname]).
  subst host org.
  rewrite Hname. reflexivity.
Qed.

(** The name "my-service" is valid, so its default path is. *)
Lemma default_module_path_of_my_service :
  Validation.isValidModulePath ("github.com/your-org/" ++ "my-service") = true.
Proof. apply default_module_path_is_valid. vm_compute. reflexivity. Defined.

(** ** What a run can end with *)
Section OutcomeFacts.
Import GoStrings GoLib Runtime Script Validation SpecWords Shapes.

Lemma gather_getwd_failed env e w :
  os_Getwd env = inr e ->
  gatherProjectInfo env w = (Returned (Failed ("failed to get current directory: " ++ e)), w).
Proof. intros H. unfold gatherProjectInfo. rewrite H. reflexivity. Qed.


(** *** Leaving through [os.Exit] *)

Lemma exits_only_cancelled_returns {A} (m : M A) : returns m -> exits_only_cancelled m.
Proof.
  intros Hr w code w' H. destruct (Hr w) as (a & w1 & E & _). rewrite E in H. discriminate.
Qed.

Lemma exits_only_cancelled_bind {A B} (m : M A) (k : A -> M B) :
  returns m -> (forall a, exits_only_cancelled (k a)) -> exits_only_cancelled (bind m k).
Proof.
  intros Hm Hk w code w' H. destruct (Hm w) as (a & w1 & E & _).
  rewrite (bind_run _ _ _ _ _ E) in H. eapply Hk. exact H.
Qed.

Lemma returns_promptWithDefault q d : returns (promptWithDefault q d).
Proof.
  intros w. rewrite promptWithDefault_run. eexists _, _. split; [reflexivity |].
  split; [exact I |]. eexists. reflexivity.
Qed.

Lemma returns_promptBool q d : returns (promptBool q d).
Proof.
  intros w. rewrite promptBool_run_lines. eexists _, _. split; [reflexivity |].
  split; [exact I |]. eexists. reflexivity.
Qed.

Lemma returns_prompt q : returns (prompt q).
Proof.
  intros w. rewrite prompt_run. eexists _, _. split; [reflexivity |].
  split; [exact I |]. eexists. reflexivity.
Qed.

Lemma returns_getGitConfig env key fallback : returns (getGitConfig env key fallback).
Proof.
  intros w. rewrite getGitConfig_run. eexists _, _. split; [reflexivity |].
  split; [exact I |]. apply later_add.
Qed.

Lemma cancel_branch_exits {A} :
  exits_only_cancelled
    (bind (Println "❌ Initialization cancelled") (fun _ => @os_Exit A 0)).
Proof.
  intros w code w' H. erewrite bind_run in H by apply emit_run.
  injection H as <- <-. split; [reflexivity |].
  cbn [trace add_events]. apply last_snoc.
Qed.

Lemma gather_exits_only_cancelled env : exits_only_cancelled (gatherProjectInfo env).
Proof.
  unfold gatherProjectInfo. destruct (os_Getwd env);
    [| apply exits_only_cancelled_returns, returns_ret; exact I].
  repeat first
    [ apply cancel_branch_exits
    | apply exits_only_cancelled_bind;
      [ first [ apply returns_promptWithDefault | apply returns_promptBool
              | apply returns_prompt | apply returns_getGitConfig | apply returns_emit ]
      | intros ? ]
    | match goal with
      | |- exits_only_cancelled (if ?c then _ else _) => destruct c
      end
    | apply exits_only_cancelled_returns, returns_ret; exact I ].
Qed.

Lemma main_config_outcome env w config w1 :
  gatherProjectInfo env (mkWorld (stdin w) (fs w) (trace w ++ banner))
  = (Returned (Config config), w1) ->
  exists out w',
    main env w = (out, w')
    /\ ((out = Returned tt /\ In succeeded (trace w')
         /\ fst (initializeProject env config w1) = Returned None)
        \/ (out = Exited 1
            /\ exists e,
                fst (initializeProject env config w1) = Returned (Some e)
                /\ required_failure e
                /\ last (trace w') = Some (LogFatal ("Failed to initialize project: " ++ e)))).
Proof.
  intros Hg. rewrite main_after_banner. rewrite (bind_run _ _ _ _ _ Hg).
  destruct (initializeProject_returns env config w1) as ([e |] & w2 & Ei & Hreq).
  - rewrite (bind_run _ _ _ _ _ Ei). eexists. eexists. split; [reflexivity |].
    right. split; [reflexivity |]. exists e. rewrite Ei.
    split; [reflexivity |]. split; [assumption |].
    cbn [trace add_events]. apply last_snoc.
  - rewrite (bind_run _ _ _ _ _ Ei).
    do 5 (erewrite bind_run by apply emit_run).
    destruct (EnableDocs config).
    + erewrite bind_run by apply emit_run.
      eexists. eexists. split; [reflexivity |]. left.
      split; [reflexivity |]. rewrite Ei. split; [| reflexivity].
      unfold add_events, succeeded. cbn [trace].
      rewrite !in_app_iff. cbn [In]. rewrite append_assoc. tauto.
    + eexists. eexists. split; [reflexivity |]. left.
      split; [reflexivity |]. rewrite Ei. split; [| reflexivity].
      unfold add_events, succeeded. cbn [trace].
      rewrite !in_app_iff. cbn [In]. rewrite append_assoc. tauto.
Qed.

End OutcomeFacts.



(** X5.  A run whose standard input ends before a thirteenth complete
    line never mutates anything: the confirmation is read thirteenth,
    a failed read answers with the default, and the default is no.  The
    run then ends with status 0 (cancelled), or with status 1 when an
    earlier validation fails. *)
Theorem short_input_never_mutates :
  forall env w,
    snd (SpecWords.nth_line 12 (Runtime.stdin w)) = false ->
    exists out w',
      Script.main env w = (out, w')
      /\ SpecWords.no_mutation w w'
      /\ (out = Runtime.Exited 0 \/ out = Runtime.Exited 1).
Proof.
  intros env w Hshort.
  set (w0 := Runtime.mkWorld (Runtime.stdin w) (Runtime.fs w)
               (Runtime.trace w ++ SpecWords.banner)).
  assert (Hc : SpecWords.confirmation (Runtime.stdin w) = false).
  { unfold SpecWords.confirmation, SpecWords.bool_answer. rewrite Hshort. reflexivity. }
  destruct (Script.os_Getwd env) as [cwd | e] eqn:Hcwd.
  - destruct (Validation.isValidProjectName (SpecWords.name_answer cwd (Runtime.stdin w)))
      eqn:Hname.
    + destruct (Validation.isValidModulePath (SpecWords.path_answer cwd (Runtime.stdin w)))
        eqn:Hpath.
      * destruct (gather_confirmation env cwd w0 Hcwd Hname Hpath)
          as (config & w1 & _ & _ & Hg).
        change (Runtime.stdin w0) with (Runtime.stdin w) in Hg. rewrite Hc in Hg.
        destruct (main_gather_exited env w 0 w1 Hg) as [Hm Hq].
        eexists. eexists. split; [exact Hm |]. auto.
      * destruct (gather_invalid_path env cwd w0 Hcwd Hname Hpath) as (w1 & Hg).
        destruct (main_gather_failed env w _ w1 Hg) as [Hm Hq].
        eexists. eexists. split; [exact Hm |]. auto.
    + destruct (gather_invalid_name env cwd w0 Hcwd Hname) as (w1 & Hg).
      destruct (main_gather_failed env w _ w1 Hg) as [Hm Hq].
      eexists. eexists. split; [exact Hm |]. auto.
  - destruct (main_gather_failed env w _ w0 (gather_getwd_failed env e w0 Hcwd)) as [Hm Hq].
    eexists. eexists. split; [exact Hm |]. auto.
Qed.

(** On the sample clone with nothing on standard input the run is
    cancelled or refused, and nothing is mutated. *)
Lemma short_input_on_sample :
  exists out w',
    Script.main Sample.sample_env Sample.sample_world = (out, w')
    /\ SpecWords.no_mutation Sample.sample_world w'
    /\ (out = Runtime.Exited 0 \/ out = Runtime.Exited 1).
Proof. apply short_input_never_mutates. reflexivity. Defined.

(** X6.  [main] ends in one of three ways.  It returns normally after
    announcing the success; or it exits with status 0 right after
    announcing the cancellation, having mutated nothing; or it exits
    with status 1 right after a fatal log line, which reports either a
    failure to gather the configuration or a failure of one of the
    five required steps of the initialization. *)
Theorem main_ends_in_one_of_three_ways :
  forall env w,
    exists out w',
      Script.main env w = (out, w')
      /\ ((out = Runtime.Returned tt /\ In Shapes.succeeded (Runtime.trace w'))
          \/ (out = Runtime.Exited 0
              /\ last (Runtime.trace w') = Some Shapes.cancelled
              /\ SpecWords.no_mutation w w')
          \/ (out = Runtime.Exited 1
              /\ exists msg,
                  last (Runtime.trace w') = Some (Runtime.LogFatal msg)
                  /\ ((exists e, msg = "Failed to gather project info: " ++ e)
                      \/ (exists e, msg = "Failed to initialize project: " ++ e
                                    /\ SpecWords.required_failure e)))).
Proof.
  intros env w.
  set (w0 := Runtime.mkWorld (Runtime.stdin w) (Runtime.fs w)
               (Runtime.trace w ++ SpecWords.banner)).
  destruct (Script.gatherProjectInfo env w0) as [[[config | e] | code] w1] eqn:Hg.
  - destruct (main_config_outcome env w config w1 Hg)
      as (out & w' & Hm & [(-> & Hs & _) | (-> & e & _ & Hreq & Hl)]).
    + exists (Runtime.Returned tt), w'. split; [assumption |]. left. auto.
    + exists (Runtime.Exited 1), w'. split; [assumption |]. right. right.
      split; [reflexivity |]. exists ("Failed to initialize project: " ++ e).
      split; [assumption |]. right. exists e. auto.
  - destruct (main_gather_failed env w e w1 Hg) as [Hm Hq].
    eexists. eexists. split; [exact Hm |]. right. right. split; [reflexivity |].
    eexists. split; [apply last_snoc |]. left. exists e. reflexivity.
  - destruct (gather_exits_only_cancelled env w0 code w1 Hg) as [-> Hl].
    destruct (main_gather_exited env w 0 w1 Hg) as [Hm Hq].
    exists (Runtime.Exited 0), w1. split; [assumption |]. right. left. auto.
Qed.

(** ** Single file operations *)
Section FileOpFacts.
Import GoStrings GoLib Runtime Script SpecWords Shapes.

Lemma os_WriteFile_run path data perm w :
  os_WriteFile path data perm w =
  match FS.WriteFile (fs w) path data perm with
  | inl t => (Returned None, mkWorld (stdin w) t (trace w ++ [OsWriteFile path]))
  | inr e => (Returned (Some e), add_events w [OsWriteFile path])
  end.
Proof.
  unfold os_WriteFile, bind, emit, get_fs, put_fs, ret. cbn [stdin fs trace].
  destruct (FS.WriteFile (fs w) path data perm); reflexivity.
Qed.

Lemma os_Remove_run path w :
  os_Remove path w =
  match FS.Remove (fs w) path with
  | inl t => (Returned None, mkWorld (stdin w) t (trace w ++ [OsRemove path]))
  | inr e => (Returned (Some e), add_events w [OsRemove path])
  end.
Proof.
  unfold os_Remove, bind, emit, get_fs, put_fs, ret. cbn [stdin fs trace].
  destruct (FS.Remove (fs w) path); reflexivity.
Qed.


Lemma Remove_cases (t : gmap string FS.node) path :
  match FS.Remove t path with
  | inl t' =>
      t' = delete path t /\ t !! path <> None
      /\ (t !! path = Some FS.Dir -> FS.has_children t path = false)
  | inr _ =>
      t !! path = None \/ (t !! path = Some FS.Dir /\ FS.has_children t path = true)
  end.
Proof.
  unfold FS.Remove. destruct (t !! path) as [[mode c |] |] eqn:E.
  - split; [reflexivity |]. split; [discriminate | discriminate].
  - destruct (FS.has_children t path) eqn:Hc.
    + right. auto.
    + split; [reflexivity |]. split; [discriminate | auto].
  - left. reflexivity.
Qed.

End FileOpFacts.




(** ** The documentation files *)
Section DocFacts.
Import GoStrings GoLib Runtime Script SpecWords Shapes.

Lemma updateDocumentationFile_run path f config w :
  updateDocumentationFile path f config w =
  match fs w !! path with
  | None => (Returned None, w)
  | Some (FS.File mode _) =>
      (Returned None,
       mkWorld (stdin w) (<[path := FS.File mode (f config)]> (fs w))
               (trace w ++ [OsWriteFile path]))
  | Some FS.Dir =>
      (Returned (Some ("open " ++ path ++ ": is a directory")),
       add_events w [OsWriteFile path])
  end.
Proof.
  unfold updateDocumentationFile, os_Stat, FS.Stat.
  cbv beta iota delta [bind get_fs ret].
  destruct (fs w !! path) as [[mode c |] |] eqn:E; [| | reflexivity];
    rewrite os_WriteFile_run; unfold FS.WriteFile; rewrite E; reflexivity.
Qed.



End DocFacts.


(** ** Cleaning up the template artifacts *)
Section CleanupFacts.
Import GoStrings GoLib Runtime Script SpecWords Shapes.

Lemma never_creates_ret {A} (a : A) : never_creates (ret a).
Proof. intros w p H. exact H. Qed.

Lemma never_creates_bind {A B} (m : M A) (k : A -> M B) :
  never_creates m -> (forall a, never_creates (k a)) -> never_creates (bind m k).
Proof.
  intros Hm Hk w p H. unfold bind. specialize (Hm w p H).
  destruct (m w) as [[a | code] w1]; simpl in *; [apply Hk |]; assumption.
Qed.

Lemma never_creates_check step wrap next :
  never_creates step -> never_creates next -> never_creates (check step wrap next).
Proof.
  intros Hs Hn. unfold check. apply never_creates_bind; [assumption |].
  intros [e |]; [apply never_creates_ret | assumption].
Qed.

Lemma never_creates_emit e : never_creates (emit e).
Proof. intros w p H. exact H. Qed.

Lemma never_creates_if {A} (c : bool) (a b : M A) :
  never_creates a -> never_creates b -> never_creates (if c then a else b).
Proof. destruct c; auto. Qed.

Lemma never_creates_os_Remove path : never_creates (os_Remove path).
Proof.
  intros w p H. rewrite os_Remove_run.
  pose proof (Remove_cases (fs w) path) as Hc.
  destruct (FS.Remove (fs w) path) as [t | e]; cbn [snd fs add_events]; [| assumption].
  destruct Hc as (-> & _). rewrite lookup_delete. destruct (decide (path = p)); auto.
Qed.

Lemma never_creates_removeFileIfExists path : never_creates (removeFileIfExists path).
Proof.
  unfold removeFileIfExists, Printf.
  apply never_creates_bind; [intros w p H; exact H |]. intros [n |].
  - apply never_creates_bind; [apply never_creates_emit |].
    intros _. apply never_creates_os_Remove.
  - apply never_creates_ret.
Qed.

Lemma never_creates_updateDocumentationFile path f config :
  never_creates (updateDocumentationFile path f config).
Proof.
  intros w p H. rewrite updateDocumentationFile_run.
  destruct (fs w !! path) as [[mode c |] |] eqn:E; cbn [snd fs add_events]; try assumption.
  rewrite lookup_insert_ne; [assumption |]. intros ->. congruence.
Qed.

Lemma never_creates_cleanupDocumentationReferences env config :
  never_creates (cleanupDocumentationReferences env config).
Proof.
  unfold cleanupDocumentationReferences. cbv zeta.
  destruct (index_first env);
    repeat (apply never_creates_check; [apply never_creates_updateDocumentationFile |]);
    apply never_creates_ret.
Qed.

(** *** The frame *)

Lemma touches_only_ret {A} l (a : A) : touches_only l (ret a).
Proof. intros w p H. reflexivity. Qed.

Lemma touches_only_bind {A B} l (m : M A) (k : A -> M B) :
  touches_only l m -> (forall a, touches_only l (k a)) -> touches_only l (bind m k).
Proof.
  intros Hm Hk w p H. unfold bind. specialize (Hm w p H).
  destruct (m w) as [[a | code] w1]; simpl in *; [| assumption].
  rewrite (Hk a w1 p H). assumption.
Qed.

Lemma touches_only_check l step wrap next :
  touches_only l step -> touches_only l next -> touches_only l (check step wrap next).
Proof.
  intros Hs Hn. unfold check. apply touches_only_bind; [assumption |].
  intros [e |]; [apply touches_only_ret | assumption].
Qed.

Lemma touches_only_emit l e : touches_only l (emit e).
Proof. intros w p H. reflexivity. Qed.

Lemma touches_only_removeFileIfExists l path :
  In path l -> touches_only l (removeFileIfExists path).
Proof.
  intros Hin w p Hp. assert (Hne : path <> p) by (intros ->; contradiction).
  unfold removeFileIfExists, os_Stat, FS.Stat, Printf.
  cbv beta iota delta [bind get_fs ret emit]. cbn [stdin fs trace].
  destruct (fs w !! path) as [n |]; [| reflexivity].
  rewrite os_Remove_run. cbn [fs].
  pose proof (Remove_cases (fs w) path) as Hc.
  destruct (FS.Remove (fs w) path) as [t | e]; cbn [snd fs add_events]; [| reflexivity].
  destruct Hc as (-> & _). apply lookup_delete_ne. assumption.
Qed.

Lemma touches_only_updateDocumentationFile l path f config :
  In path l -> touches_only l (updateDocumentationFile path f config).
Proof.
  intros Hin w p Hp. assert (Hne : path <> p) by (intros ->; contradiction).
  rewrite updateDocumentationFile_run.
  destruct (fs w !! path) as [[mode c |] |]; cbn [snd fs add_events]; try reflexivity.
  apply lookup_insert_ne. assumption.
Qed.

Lemma touches_only_cleanupDocumentationReferences l env config :
  In index_md l -> In getting_started_md l ->
  touches_only l (cleanupDocumentationReferences env config).
Proof.
  intros H1 H2. unfold cleanupDocumentationReferences. cbv zeta.
  destruct (index_first env);
    repeat (apply touches_only_check;
            [apply touches_only_updateDocumentationFile; assumption |]);
    apply touches_only_ret.
Qed.

Lemma touches_only_cleanupTemplateArtifacts env config :
  touches_only (cleanup_targets config) (cleanupTemplateArtifacts env config).
Proof.
  unfold cleanupTemplateArtifacts, cleanup_targets, Println.
  destruct (EnableE2ETests config), (EnableCLI config), (EnableServer config),
    (EnableWorker config), (EnableDocs config); cbn [negb app];
    repeat lazymatch goal with
      | |- touches_only _ (ret _) => apply touches_only_ret
      | |- touches_only _ (emit _) => apply touches_only_emit
      | |- touches_only _ (removeFileIfExists _) =>
          apply touches_only_removeFileIfExists;
          solve [repeat first [left; reflexivity | right]]
      | |- touches_only _ (cleanupDocumentationReferences _ _) =>
          apply touches_only_cleanupDocumentationReferences;
          solve [repeat first [left; reflexivity | right]]
      | |- touches_only _ (check _ _ _) => apply touches_only_check
      | |- touches_only _ (bind _ _) => apply touches_only_bind; [| intros ?]
      end.
Qed.

Lemma removeFileIfExists_gone path w w' :
  removeFileIfExists path w = (Returned None, w') -> fs w' !! path = None.
Proof.
  unfold removeFileIfExists, os_Stat, FS.Stat, Printf.
  cbv beta iota delta [bind get_fs ret emit]. cbn [stdin fs trace].
  destruct (fs w !! path) as [n |] eqn:E.
  - rewrite os_Remove_run. cbn [fs].
    pose proof (Remove_cases (fs w) path) as Hc.
    destruct (FS.Remove (fs w) path) as [t | e]; [| discriminate].
    destruct Hc as (-> & _). intros [= <-]. apply lookup_delete_eq.
  - intros [= <-]. assumption.
Qed.

Lemma optional_removal_gone (keep : bool) path next w w' :
  never_creates next ->
  check (if negb keep then removeFileIfExists path else ret None) id next w
  = (Returned None, w') ->
  keep = false -> fs w' !! path = None.
Proof.
  intros Hn H ->. cbn [negb] in H. apply check_inv in H as (w1 & Hs & Hnext).
  apply removeFileIfExists_gone in Hs.
  pose proof (Hn w1 path Hs) as Hk. rewrite Hnext in Hk. exact Hk.
Qed.

Lemma check_skip (keep : bool) path next w w' :
  check (if negb keep then removeFileIfExists path else ret None) id next w
  = (Returned None, w') ->
  exists w1, next w1 = (Returned None, w').
Proof. intros H. apply check_inv in H as (w1 & _ & Hnext). eauto. Qed.

End CleanupFacts.

Ltac never_creates_structure :=
  repeat lazymatch goal with
    | |- Shapes.never_creates (Runtime.ret _) => apply never_creates_ret
    | |- Shapes.never_creates (Runtime.emit _) => apply never_creates_emit
    | |- Shapes.never_creates (Script.removeFileIfExists _) =>
        apply never_creates_removeFileIfExists
    | |- Shapes.never_creates (Script.cleanupDocumentationReferences _ _) =>
        apply never_creates_cleanupDocumentationReferences
    | |- Shapes.never_creates (Script.check _ _ _) => apply never_creates_check
    | |- Shapes.never_creates (if _ then _ else _) => apply never_creates_if
    | |- Shapes.never_creates (Runtime.bind _ _) => apply never_creates_bind; [| intros ?]
    end.

(** X11.  When [cleanupTemplateArtifacts] succeeds, the self-test
    [tests/e2e/init_e2e_test.go] is gone, and so is, with E2E tests
    selected, the E2E test file of every component that was declined.
    The step never brings a path into being, and it changes nothing
    outside its targets: the self-test, the test files just named, and
    with documentation selected the two documentation files.  So the
    test files of selected components, and all of them when E2E tests
    are declined, are exactly as before. *)
Theorem cleanupTemplateArtifacts_removes_only_its_targets :
  forall env config w w',
    Script.cleanupTemplateArtifacts env config w = (Runtime.Returned None, w') ->
    Runtime.fs w' !! Shapes.init_test = None
    /\ (Script.EnableE2ETests config = true ->
        (Script.EnableCLI config = false -> Runtime.fs w' !! Shapes.cli_test = None)
        /\ (Script.EnableServer config = false -> Runtime.fs w' !! Shapes.server_test = None)
        /\ (Script.EnableWorker config = false ->
            Runtime.fs w' !! Shapes.worker_test = None))
    /\ (forall path, Runtime.fs w !! path = None -> Runtime.fs w' !! path = None)
    /\ (forall path, ~ In path (Shapes.cleanup_targets config) ->
                     Runtime.fs w' !! path = Runtime.fs w !! path).
Proof.
  intros env config w w' H.
  assert (Hnc : Shapes.never_creates (Script.cleanupTemplateArtifacts env config)).
  { unfold Script.cleanupTemplateArtifacts, GoLib.Println. never_creates_structure. }
  split; [| split; [| split]].
  - unfold Script.cleanupTemplateArtifacts in H.
    apply bind_inv in H as ([] & w0 & _ & H).
    apply check_inv in H as (w1 & Hrm & H).
    apply removeFileIfExists_gone in Hrm.
    match type of H with
    | ?next w1 = _ =>
        assert (Hn : Shapes.never_creates next)
          by (unfold GoLib.Println; never_creates_structure)
    end.
    pose proof (Hn w1 _ Hrm) as Hk. rewrite H in Hk. exact Hk.
  - intros He2e. unfold Script.cleanupTemplateArtifacts in H.
    apply bind_inv in H as ([] & w0 & _ & H).
    apply check_inv in H as (w1 & _ & H).
    apply check_inv in H as (w2 & Hblock & H).
    rewrite He2e in Hblock.
    match type of H with
    | ?next w2 = _ =>
        assert (Hn : Shapes.never_creates next)
          by (unfold GoLib.Println; never_creates_structure)
    end.
    assert (Hkeep : forall p, Runtime.fs w2 !! p = None -> Runtime.fs w' !! p = None).
    { intros p Hp. pose proof (Hn w2 p Hp) as Hk. rewrite H in Hk. exact Hk. }
    split; [| split].
    + intros Hc. apply Hkeep.
      eapply optional_removal_gone; [| exact Hblock | exact Hc]. never_creates_structure.
    + intros Hs. apply Hkeep.
      apply check_skip in Hblock as (wa & Hblock).
      eapply optional_removal_gone; [| exact Hblock | exact Hs]. never_creates_structure.
    + intros Hw. apply Hkeep.
      apply check_skip in Hblock as (wa & Hblock).
      apply check_skip in Hblock as (wb & Hblock).
      eapply optional_removal_gone; [| exact Hblock | exact Hw]. never_creates_structure.
  - intros path Hp. pose proof (Hnc w path Hp) as Hk. rewrite H in Hk. exact Hk.
  - intros path Hp.
    pose proof (touches_only_cleanupTemplateArtifacts env config w path Hp) as Hk.
    rewrite H in Hk. exact Hk.
Qed.

(** On the sample clone the clean-up succeeds, so the self-test is gone
    and nothing outside the targets has changed. *)
Lemma cleanupTemplateArtifacts_on_sample :
  Runtime.fs (snd (Script.cleanupTemplateArtifacts Sample.sample_env Sample.sample_config
                     Sample.sample_world)) !! Shapes.init_test = None.
Proof.
  refine (proj1 (cleanupTemplateArtifacts_removes_only_its_targets
                   Sample.sample_env Sample.sample_config Sample.sample_world _ _)).
  vm_compute. reflexivity.
Defined.

(** ** Rewriting and pruning together *)
Section RewriteFacts.
Import GoStrings GoLib Runtime Script SpecWords Shapes.







End RewriteFacts.





(** ** The external commands *)
Section CommandFacts.
Import GoStrings GoLib Runtime Script SpecWords Shapes.

Lemma bind_assoc {A B C} (m : M A) (f : A -> M B) (k : B -> M C) w :
  bind (bind m f) k w = bind m (fun a => bind (f a) k) w.
Proof. unfold bind. destruct (m w) as [[a | code] w1]; reflexivity. Qed.

Lemma add_events_add w a b : add_events (add_events w a) b = add_events w (a ++ b).
Proof. unfold add_events. cbn [stdin fs trace]. rewrite app_assoc. reflexivity. Qed.

Lemma add_events_nil w : add_events w [] = w.
Proof. unfold add_events. rewrite app_nil_r. apply world_eta. Qed.

Lemma initializeGit_events env config w :
  initializeGit env config w
  = (Returned (git_report env config), add_events w (git_events env config)).
Proof.
  unfold git_report, git_events, initializeGit, warning, commit_command.
  cbv zeta. rewrite exec_step.
  destruct (exec_err (exec_run env ["git"; "init"])) as [e0 |].
  { rewrite app_nil_r. reflexivity. }
  rewrite (best_effort_step env _
             (fun e => "⚠️  Failed to set git user.name: " ++ e ++ newline)).
  rewrite (best_effort_step env _
             (fun e => "⚠️  Failed to set git user.email: " ++ e ++ newline)).
  rewrite !add_events_add.
  assert (R : forall B (k : unit -> M B) w0, bind
               (if negb (String.eqb (GitRemote config) "") then
                  bind (exec_Command_Run env
                          ["git"; "remote"; "add"; "origin"; GitRemote config])
                    (fun r => match exec_err r with
                              | Some e =>
                                  Printf ("⚠️  Failed to add git remote: " ++ e ++ newline)
                              | None => ret tt
                              end)
                else ret tt) k w0
             = k tt (add_events w0
                       (if String.eqb (GitRemote config) "" then []
                        else Exec ["git"; "remote"; "add"; "origin"; GitRemote config]
                             :: match exec_err
                                        (exec_run env
                                           ["git"; "remote"; "add"; "origin";
                                            GitRemote config]) with
                                | Some e =>
                                    [Print ("⚠️  Failed to add git remote: " ++ e ++ newline)]
                                | None => []
                                end))).
  { intros B k w0. destruct (String.eqb (GitRemote config) ""); cbn [negb].
    - rewrite add_events_nil. reflexivity.
    - cbv beta iota zeta delta [Printf bind exec_Command_Run emit ret add_events].
      cbn [stdin fs trace].
      match goal with
      | |- context [match exec_err ?r with _ => _ end] => destruct (exec_err r)
      end; cbn [stdin fs trace]; rewrite <- ?app_assoc; reflexivity. }
  rewrite R. clear R. rewrite exec_step, !add_events_add.
  destruct (exec_err (exec_run env ["git"; "add"; "."])) as [ea |].
  { rewrite <- !app_assoc, app_nil_r. reflexivity. }
  destruct (commit_select env) as [| started kill_err].
  - rewrite exec_step, add_events_add.
    match goal with
    | |- context [match exec_err ?r with _ => _ end] => destruct (exec_err r) as [ec |]
    end; rewrite <- !app_assoc; reflexivity.
  - destruct started, kill_err as [ek |];
      cbv beta iota delta [bind emit ret Printf]; unfold add_events;
      cbn [stdin fs trace]; rewrite <- !app_assoc; reflexivity.
Qed.

Lemma setupPreCommitHooks_events env w :
  setupPreCommitHooks env w
  = (Returned (match exec_err (exec_run env ["pre-commit"; "--version"]) with
               | Some _ => Some "pre-commit not installed"
               | None => exec_err (exec_run env ["pre-commit"; "install"])
               end),
     add_events w (hook_events env)).
Proof.
  unfold setupPreCommitHooks, hook_events. rewrite exec_step.
  destruct (exec_err (exec_run env ["pre-commit"; "--version"])); [reflexivity |].
  rewrite exec_step. unfold ret. rewrite add_events_add. reflexivity.
Qed.

(** *** Which programs a step starts *)

Variable programs : list string.

Lemma emits_only_ret {A} P (a : A) : emits_only P (ret a).
Proof. intros w. exists []. rewrite app_nil_r. split; reflexivity. Qed.

Lemma emits_only_exit {A} P code : emits_only P (@os_Exit A code).
Proof. intros w. exists []. rewrite app_nil_r. split; reflexivity. Qed.

Lemma emits_only_get_fs P : emits_only P get_fs.
Proof. intros w. exists []. rewrite app_nil_r. split; reflexivity. Qed.

Lemma emits_only_put_fs P t : emits_only P (put_fs t).
Proof. intros w. exists []. cbn. rewrite app_nil_r. split; reflexivity. Qed.

Lemma emits_only_emit (P : Event -> bool) e : P e = true -> emits_only P (emit e).
Proof. intros H w. exists [e]. cbn. rewrite H. split; reflexivity. Qed.

Lemma emits_only_bind {A B} P (m : M A) (k : A -> M B) :
  emits_only P m -> (forall a, emits_only P (k a)) -> emits_only P (bind m k).
Proof.
  intros Hm Hk w. destruct (Hm w) as (e1 & T1 & F1). unfold bind.
  destruct (m w) as [[a | code] w1]; cbn [snd] in *.
  - destruct (Hk a w1) as (e2 & T2 & F2). exists (e1 ++ e2)%list.
    rewrite T2, T1, app_assoc, forallb_app, F1, F2. split; reflexivity.
  - exists e1. auto.
Qed.

Lemma emits_only_reader P delim : emits_only P (reader_ReadString delim).
Proof.
  intros w. exists []. unfold reader_ReadString.
  destruct (ReadString delim (stdin w)) as [[line ok] rest]. cbn.
  rewrite app_nil_r. split; reflexivity.
Qed.

Lemma emits_only_events {A} P (m : M A) (events : World -> list Event) :
  (forall w, trace (snd (m w)) = (trace w ++ events w)%list) ->
  (forall w, forallb P (events w) = true) -> emits_only P m.
Proof. intros T F w. exists (events w). auto. Qed.

Lemma runs_only_exec env argv :
  existsb (String.eqb (hd "" argv)) programs = true ->
  runs_only programs (exec_Command_Run env argv).
Proof.
  intros H. unfold runs_only, exec_Command_Run.
  apply emits_only_bind; [apply emits_only_emit; exact H | intros _; apply emits_only_ret].
Qed.

Lemma forallb_map_allowed {A} (f : A -> Event) (l : list A) :
  (forall a, command_of (f a) = None) ->
  forallb (allowed_command programs) (map f l) = true.
Proof.
  intros H. apply forallb_forall. intros e [a [<- _]]%in_map_iff.
  unfold allowed_command. rewrite H. reflexivity.
Qed.

Lemma runs_only_updateImportPaths config : runs_only programs (updateImportPaths config).
Proof.
  apply emits_only_events
    with (events := fun w => map OsWriteFile (written_back (ModulePath config) (fs w))).
  - intros w. rewrite updateImportPaths_run. reflexivity.
  - intros w. apply forallb_map_allowed. reflexivity.
Qed.

Lemma runs_only_removeUnwantedComponents config :
  runs_only programs (removeUnwantedComponents config).
Proof.
  apply emits_only_events with (events := fun _ => map OsRemoveAll (pruned_dirs config)).
  - intros w. rewrite removeUnwantedComponents_run. reflexivity.
  - intros w. apply forallb_map_allowed. reflexivity.
Qed.

Lemma runs_only_initializeGit env config :
  existsb (String.eqb "git") programs = true ->
  runs_only programs (initializeGit env config).
Proof.
  intros H. apply emits_only_events with (events := fun _ => git_events env config).
  - intros w. rewrite initializeGit_events. reflexivity.
  - intros _. unfold git_events, warning, commit_command. cbv zeta.
    repeat match goal with
           | |- context [match ?x with _ => _ end] =>
               lazymatch x with
               | exec_err _ => destruct x
               | commit_select _ => destruct x as [| [] []]
               | String.eqb _ _ => destruct x
               end
           end;
      cbn [app forallb allowed_command command_of hd]; rewrite ?H; reflexivity.
Qed.

Lemma runs_only_setupPreCommitHooks env :
  existsb (String.eqb "pre-commit") programs = true ->
  runs_only programs (setupPreCommitHooks env).
Proof.
  intros H. apply emits_only_events with (events := fun _ => hook_events env).
  - intros w. rewrite setupPreCommitHooks_events. reflexivity.
  - intros _. unfold hook_events. destruct (exec_err _);
      cbn [app forallb allowed_command command_of hd]; rewrite ?H; reflexivity.
Qed.

End CommandFacts.

(** The structure of a step that starts no program itself. *)
Ltac runs_only_structure :=
  repeat lazymatch goal with
    | |- Shapes.runs_only _ _ => unfold Shapes.runs_only
    | |- Shapes.emits_only _ (Runtime.bind _ _) => apply emits_only_bind; [| intros ?]
    | |- Shapes.emits_only _ (Runtime.ret _) => apply emits_only_ret
    | |- Shapes.emits_only _ (Runtime.os_Exit _) => apply emits_only_exit
    | |- Shapes.emits_only _ Runtime.get_fs => apply emits_only_get_fs
    | |- Shapes.emits_only _ (Runtime.put_fs _) => apply emits_only_put_fs
    | |- Shapes.emits_only _ (Runtime.emit _) => apply emits_only_emit; reflexivity
    | |- Shapes.emits_only _ (GoLib.reader_ReadString _) => apply emits_only_reader
    | |- Shapes.emits_only _ (match ?x with _ => _ end) => destruct x
    | |- Shapes.emits_only _ (let '(_, _) := ?x in _) => destruct x
    | |- Shapes.emits_only _ (Script.updateImportPaths _) =>
        apply runs_only_updateImportPaths
    | |- Shapes.emits_only _ (Script.removeUnwantedComponents _) =>
        apply runs_only_removeUnwantedComponents
    | |- Shapes.emits_only _ (Script.initializeGit _ _) =>
        apply runs_only_initializeGit; reflexivity
    | |- Shapes.emits_only _ (Script.setupPreCommitHooks _) =>
        apply runs_only_setupPreCommitHooks; reflexivity
    | |- Shapes.emits_only _ (Script.exec_Command_Run _ _) =>
        apply runs_only_exec; reflexivity
    | |- Shapes.emits_only _ (Script.getGitConfig _ _ _) => unfold Script.getGitConfig
    | |- Shapes.emits_only _ (Script.check _ _ _) => unfold Script.check
    | |- Shapes.emits_only _ (Script.prompt _) => unfold Script.prompt
    | |- Shapes.emits_only _ (Script.promptWithDefault _ _) => unfold Script.promptWithDefault
    | |- Shapes.emits_only _ (Script.promptBool _ _) => unfold Script.promptBool
    | |- Shapes.emits_only _ (Script.updateGoMod _) => unfold Script.updateGoMod
    | |- Shapes.emits_only _ (Script.cleanupTemplateArtifacts _ _) =>
        unfold Script.cleanupTemplateArtifacts
    | |- Shapes.emits_only _ (Script.cleanupDocumentationReferences ?env _) =>
        unfold Script.cleanupDocumentationReferences;
        destruct (Script.index_first env); cbv beta iota fix
    | |- Shapes.emits_only _ (Script.updateDocumentationFile _ _ _) =>
        unfold Script.updateDocumentationFile
    | |- Shapes.emits_only _ (Script.removeFileIfExists _) => unfold Script.removeFileIfExists
    | |- Shapes.emits_only _ (Script.removeEmptyDirectory _) =>
        unfold Script.removeEmptyDirectory
    | |- Shapes.emits_only _ (Script.generateReadme _ _) => unfold Script.generateReadme
    | |- Shapes.emits_only _ (GoLib.Printf _) => unfold GoLib.Printf
    | |- Shapes.emits_only _ (GoLib.Println _) => unfold GoLib.Println
    | |- Shapes.emits_only _ (GoLib.log_Fatalf _) => unfold GoLib.log_Fatalf
    | |- Shapes.emits_only _ (GoLib.os_Stat _) => unfold GoLib.os_Stat
    | |- Shapes.emits_only _ (GoLib.os_ReadFile _) => unfold GoLib.os_ReadFile
    | |- Shapes.emits_only _ (GoLib.os_WriteFile _ _ _) => unfold GoLib.os_WriteFile
    | |- Shapes.emits_only _ (GoLib.os_Remove _) => unfold GoLib.os_Remove
    | |- Shapes.emits_only _ (GoLib.os_RemoveAll _) => unfold GoLib.os_RemoveAll
    end.


(** X16.  When the timer wins the race with the commit, the step
    reports the timeout whatever happens next: the timer's firing is the
    only timer event, the commit process is killed exactly when it had
    been started, a failure of the kill is only printed, and nothing is
    run after the timeout. *)
Theorem initializeGit_commit_timeout :
  forall env config w started kill_err,
    Runtime.exec_err (Script.exec_run env ["git"; "init"]) = None ->
    Runtime.exec_err (Script.exec_run env ["git"; "add"; "."]) = None ->
    Script.commit_select env = Runtime.TimerFirst started kill_err ->
    exists before w',
      Script.initializeGit env config w
      = (Runtime.Returned (Some "git commit timed out after 10 seconds"), w')
      /\ Runtime.trace w'
         = (Runtime.trace w ++ before
            ++ (if started then [Runtime.Exec (Shapes.commit_command config)] else [])
            ++ [Runtime.TimerFired 10000000000]
            ++ (if started then
                  Runtime.Kill (Shapes.commit_command config)
                  :: Shapes.warning "Warning: failed to kill git commit process: " kill_err
                else []))%list
      /\ last before = Some (Runtime.Exec ["git"; "add"; "."])
      /\ forall e, In e before ->
                   e <> Runtime.Exec (Shapes.commit_command config)
                   /\ (forall argv, e <> Runtime.Kill argv)
                   /\ (forall d, e <> Runtime.TimerFired d).
Proof.
  intros env config w started kill_err Hinit Hadd Hsel.
  rewrite initializeGit_events. unfold SpecWords.git_report, Shapes.git_events. cbv zeta.
  rewrite Hinit, Hadd, Hsel.
  exists ([Runtime.Exec ["git"; "init"]]
          ++ (Runtime.Exec ["git"; "config"; "user.name"; Script.Author config]
              :: Shapes.warning "⚠️  Failed to set git user.name: "
                   (Runtime.exec_err
                      (Script.exec_run env
                         ["git"; "config"; "user.name"; Script.Author config])))
          ++ (Runtime.Exec ["git"; "config"; "user.email"; Script.Email config]
              :: Shapes.warning "⚠️  Failed to set git user.email: "
                   (Runtime.exec_err
                      (Script.exec_run env
                         ["git"; "config"; "user.email"; Script.Email config])))
          ++ (if String.eqb (Script.GitRemote config) "" then []
              else Runtime.Exec ["git"; "remote"; "add"; "origin"; Script.GitRemote config]
                   :: Shapes.warning "⚠️  Failed to add git remote: "
                        (Runtime.exec_err
                           (Script.exec_run env
                              ["git"; "remote"; "add"; "origin"; Script.GitRemote config])))
          ++ [Runtime.Exec ["git"; "add"; "."]])%list.
  eexists. split; [reflexivity |]. split.
  - unfold SpecWords.add_events. cbn [Runtime.trace]. f_equal.
    rewrite <- !app_assoc. reflexivity.
  - unfold Shapes.warning. split.
    + rewrite !app_assoc. apply last_snoc.
    + intros e He. rewrite !in_app_iff in He.
      destruct (Runtime.exec_err
                  (Script.exec_run env ["git"; "config"; "user.name"; Script.Author config])),
        (Runtime.exec_err
           (Script.exec_run env ["git"; "config"; "user.email"; Script.Email config])),
        (String.eqb (Script.GitRemote config) "");
        try match type of He with
            | context [match ?x with _ => _ end] => destruct x
            end;
        cbn [In] in He; decompose [or] He; subst; try contradiction;
        (split; [discriminate | split; intros; discriminate]).
Qed.

(** With the sample's commands all succeeding and a started commit
    that outlives its timer and cannot be killed. *)
Lemma initializeGit_commit_timeout_on_sample :
  exists before w',
    Script.initializeGit
      (SpecWords.with_externals Sample.sample_env (fun _ => "") Sample.sample_run
         (Runtime.TimerFirst true (Some "os: process already finished")))
      Sample.sample_config Sample.sample_world
    = (Runtime.Returned (Some "git commit timed out after 10 seconds"), w')
    /\ Runtime.trace w'
       = (Runtime.trace Sample.sample_world ++ before
          ++ [Runtime.Exec (Shapes.commit_command Sample.sample_config)]
          ++ [Runtime.TimerFired 10000000000]
          ++ [Runtime.Kill (Shapes.commit_command Sample.sample_config);
              Runtime.Print ("Warning: failed to kill git commit process: "
                             ++ "os: process already finished" ++ GoLib.newline)])%list.
Proof.
  destruct (initializeGit_commit_timeout
              (SpecWords.with_externals Sample.sample_env (fun _ => "") Sample.sample_run
                 (Runtime.TimerFirst true (Some "os: process already finished")))
              Sample.sample_config Sample.sample_world true
              (Some "os: process already finished") eq_refl eq_refl eq_refl)
    as (before & w' & E & T & _).
  exists before, w'. split; [exact E | exact T].
Defined.

(** X17.  Whatever the input and the environment, the only programs
    the script starts are [git] and [pre-commit]. *)
Theorem main_starts_only_git_and_pre_commit :
  forall env, Shapes.runs_only ["git"; "pre-commit"] (Script.main env).
Proof.
  intros env. unfold Script.main, Script.gatherProjectInfo, Script.initializeProject.
  runs_only_structure.
Qed.

(** X18.  With [SKIP_GIT_INIT] set to anything but the empty string,
    [initializeProject] starts no [git] command at all: the only
    program it can start is [pre-commit]. *)
Theorem initializeProject_skips_git :
  forall env config,
    String.eqb (Script.os_Getenv env "SKIP_GIT_INIT") "" = false ->
    Shapes.runs_only ["pre-commit"] (Script.initializeProject env config).
Proof.
  intros env config H. unfold Script.initializeProject. rewrite H.
  runs_only_structure.
Qed.

(** In the sample environment with [SKIP_GIT_INIT=1]. *)
Lemma initializeProject_skips_git_on_sample :
  Shapes.runs_only ["pre-commit"]
    (Script.initializeProject (Shapes.with_skip Sample.sample_env "1") Sample.sample_config).
Proof. apply initializeProject_skips_git. reflexivity. Defined.

(** X19.  [generateRunCommands] lists the make target of a component
    exactly when the component is selected, falls back to
    [go run ./...] exactly when none is, and otherwise ends every line,
    the last one too, with a line feed. *)
Theorem generateRunCommands_lists_selected :
  forall config,
    let text := Templates.generateRunCommands config in
    GoStrings.Contains text "make run-cli" = Script.EnableCLI config
    /\ GoStrings.Contains text "make run-server" = Script.EnableServer config
    /\ GoStrings.Contains text "make run-worker" = Script.EnableWorker config
    /\ String.eqb text "go run ./..." = Nat.eqb (Shapes.selected config) 0
    /\ GoStrings.HasSuffix text GoLib.newline = negb (Nat.eqb (Shapes.selected config) 0)
    /\ length (filter (Ascii.eqb "010") (list_ascii_of_string text)) = Shapes.selected config.
Proof.
  intros [name path description author email license cli server worker docs e2e remote].
  unfold Templates.generateRunCommands, Shapes.selected.
  cbn [Script.EnableCLI Script.EnableServer Script.EnableWorker].
  destruct cli, server, worker; vm_compute; repeat split; reflexivity.
Qed.

(** X20.  [generateComponentDescription] names a component exactly
    when it is selected and gives the generic sentence exactly when none
    is.  The list is terminated differently by its length: with one
    component the text has no final line feed, with two or three it
    has. *)
Theorem generateComponentDescription_names_selected :
  forall config,
    let text := Templates.generateComponentDescription config in
    GoStrings.Contains text "**CLI Application**" = Script.EnableCLI config
    /\ GoStrings.Contains text "**HTTP Server**" = Script.EnableServer config
    /\ GoStrings.Contains text "**Background Worker**" = Script.EnableWorker config
    /\ GoStrings.HasPrefix text "This project provides a foundation"
       = Nat.eqb (Shapes.selected config) 0
    /\ GoStrings.HasPrefix text "This project includes:" = Nat.eqb (Shapes.selected config) 1
    /\ GoStrings.HasPrefix text "This project includes multiple components:"
       = Nat.leb 2 (Shapes.selected config)
    /\ GoStrings.HasSuffix text GoLib.newline = Nat.leb 2 (Shapes.selected config).
Proof.
  intros [name path description author email license cli server worker docs e2e remote].
  unfold Templates.generateComponentDescription, Shapes.selected.
  cbn [Script.EnableCLI Script.EnableServer Script.EnableWorker].
  destruct cli, server, worker; vm_compute; repeat split; reflexivity.
Qed.
